(** * Tice Creek calendar sync: the extraction pipeline of [scraper.py]

    A shallow embedding of the five stages of [scraper.py]
    (session extraction, time normalisation, deduplication, preference
    filter, calendar serialisation), of the way [scrape_page] and
    [run_discovery] collect the records of a page and of the run of
    [main], together with the properties the specification states about
    them and further properties of the code.

    Conventions of the embedding.
    - Python [str] is [string], the UTF-8 encoding of the text: the
      concatenation, the test for emptiness, equality, the substring
      test [in] and the patterns of the scraper, whose literals are
      ASCII, give the same results on the encoding as on the code
      points. The methods whose result depends on the Unicode tables,
      [lower], [strip] and [title], are parameters of the pipeline
      (class [StrLib]); an instance that acts on ASCII letters and ASCII
      white space, as the methods do on ASCII text, is given for
      evaluation.
    - A class record is a Python dict with a fixed set of keys; it is a
      record whose fields are options, [None] standing for an absent key.
    - Exceptions that the code does not catch are results [Raise e].
    - [datetime.fromisoformat] is a library function whose accepted
      grammar depends on the interpreter version; the pipeline is
      parametrised by it (class [IsoParser]) and an instance for the
      extended ISO format is given for evaluation. *)

From Stdlib Require Import ZArith String Ascii List Bool Lia.
From Stdlib Require Floats.SpecFloat.
From stdpp Require Import base decidable option list sets gmap strings.

#[local] Open Scope string_scope.
#[local] Open Scope list_scope.
#[local] Open Scope Z_scope.

(** ** Python strings

    The functions of this module work on the bytes of a string. The
    functions [ascii_lower], [ascii_strip] and [ascii_title] are what
    [lower], [strip] and [title] do on ASCII text; the pipeline does
    not use them but the methods of the class [StrLib] below. *)

Module Py.

(** The double quote character; markup and patterns below are written
    with an apostrophe where the source has a double quote and passed
    through [q]. *)
Definition dquote : ascii := ascii_of_nat 34.

Fixpoint q (s : string) : string :=
  match s with
  | EmptyString => EmptyString
  | String c s' =>
      String (if Ascii.eqb c "'"%char then dquote else c) (q s')
  end.

Definition code (c : ascii) : nat := nat_of_ascii c.

Definition is_upper (c : ascii) : bool :=
  (65 <=? code c)%nat && (code c <=? 90)%nat.

Definition is_lower (c : ascii) : bool :=
  (97 <=? code c)%nat && (code c <=? 122)%nat.

Definition to_lower (c : ascii) : ascii :=
  if is_upper c then ascii_of_nat (code c + 32) else c.

Definition to_upper (c : ascii) : ascii :=
  if is_lower c then ascii_of_nat (code c - 32) else c.

(** [str.isspace] on ASCII: TAB, LF, VT, FF, CR, FS, GS, RS, US, SPACE. *)
Definition is_space (c : ascii) : bool :=
  ((9 <=? code c)%nat && (code c <=? 13)%nat)
  || ((28 <=? code c)%nat && (code c <=? 32)%nat).

(** [s.lower()] for ASCII text. *)
Fixpoint ascii_lower (s : string) : string :=
  match s with
  | EmptyString => EmptyString
  | String c s' => String (to_lower c) (ascii_lower s')
  end.

(** [s.lstrip()] for ASCII text. *)
Fixpoint ascii_lstrip (s : string) : string :=
  match s with
  | String c s' => if is_space c then ascii_lstrip s' else s
  | EmptyString => EmptyString
  end.

(** [s.rstrip()] for ASCII text: a suffix made of white space only is
    dropped. *)
Fixpoint ascii_rstrip (s : string) : string :=
  match s with
  | EmptyString => EmptyString
  | String c s' =>
      match ascii_rstrip s' with
      | EmptyString => if is_space c then EmptyString else String c EmptyString
      | r => String c r
      end
  end.

(** [s.strip()] for ASCII text. *)
Definition ascii_strip (s : string) : string := ascii_rstrip (ascii_lstrip s).

(** [s.lstrip(c)] for a one-character argument. *)
Fixpoint lstrip_char (c : ascii) (s : string) : string :=
  match s with
  | String a s' => if Ascii.eqb a c then lstrip_char c s' else s
  | EmptyString => EmptyString
  end.

(** [s.replace(a, b)] for one-character [a] and [b]. *)
Fixpoint replace_char (a b : ascii) (s : string) : string :=
  match s with
  | EmptyString => EmptyString
  | String c s' => String (if Ascii.eqb c a then b else c) (replace_char a b s')
  end.

(** [s.title()] for ASCII text: a cased character is upper-cased when
    the previous character is not cased and lower-cased when it is. *)
Fixpoint ascii_title_from (previous_is_cased : bool) (s : string) : string :=
  match s with
  | EmptyString => EmptyString
  | String c s' =>
      if is_lower c then
        String (if previous_is_cased then c else to_upper c)
          (ascii_title_from true s')
      else if is_upper c then
        String (if previous_is_cased then to_lower c else c)
          (ascii_title_from true s')
      else String c (ascii_title_from false s')
  end.

Definition ascii_title (s : string) : string := ascii_title_from false s.

(** [s.startswith(p)] *)
Fixpoint startswith (p s : string) : bool :=
  match p, s with
  | EmptyString, _ => true
  | String a p', String b s' => Ascii.eqb a b && startswith p' s'
  | String _ _, EmptyString => false
  end.

(** [p in s] *)
Fixpoint contains (p s : string) : bool :=
  startswith p s ||
  match s with
  | EmptyString => false
  | String _ s' => contains p s'
  end.

(** [sep.join(parts)] *)
Fixpoint join (sep : string) (parts : list string) : string :=
  match parts with
  | [] => EmptyString
  | [p] => p
  | p :: rest => p +:+ sep +:+ join sep rest
  end.

(** The first [n] characters of [s]. *)
Fixpoint take (n : nat) (s : string) : string :=
  match n, s with
  | S n', String c s' => String c (take n' s')
  | _, _ => EmptyString
  end.

(** Truthiness of a string: [if s]. *)
Definition truthy (s : string) : bool :=
  match s with EmptyString => false | _ => true end.

End Py.

(** The methods of [str] that depend on the Unicode tables, as the
    interpreter provides them: [s.lower()], [s.strip()] and
    [s.title()]. Title-casing turns every character into one or more
    characters, so its result is empty only for the empty text. *)
Class StrLib : Type := {
  lower : string -> string;
  strip : string -> string;
  title : string -> string;
  title_empty : forall s, title s = EmptyString -> s = EmptyString
}.

(** The instance for ASCII text. *)
Definition ascii_text : StrLib.
Proof.
  refine {| lower := Py.ascii_lower; strip := Py.ascii_strip;
            title := Py.ascii_title |}.
  intros [|c s]; [reflexivity|].
  unfold Py.ascii_title. cbn [Py.ascii_title_from].
  destruct (Py.is_lower c); [discriminate|].
  destruct (Py.is_upper c); discriminate.
Defined.

(** ** Regular expressions

    The fragment of [re] that the scraper uses, with the backtracking
    semantics of the library: alternatives are tried left to right, a
    greedy repetition tries the longest repetition first and a lazy one
    the shortest, and a look-ahead consumes nothing. Repetition is only
    ever applied to a character class in the source. *)

Module Re.

Inductive cclass : Type :=
| AnyChar              (* [.] under [re.DOTALL] *)
| Dot                  (* [.] without flags: anything but a line feed *)
| NotChar (c : ascii). (* [[^c]] *)

Definition cmatch (k : cclass) (a : ascii) : bool :=
  match k with
  | AnyChar => true
  | Dot => negb (Ascii.eqb a (ascii_of_nat 10))
  | NotChar c => negb (Ascii.eqb a c)
  end.

Inductive regex : Type :=
| Lit (s : string)
| Star (k : cclass)       (* [k*]  *)
| Plus (k : cclass)       (* [k+]  *)
| StarLazy (k : cclass)   (* [k*?] *)
| Seq (r1 r2 : regex)
| Alt (r1 r2 : regex)
| Group (i : nat) (r : regex)
| Ahead (r : regex).      (* [(?=r)] *)

(** Contents of the capture groups, most recent binding first. *)
Definition captures : Type := list (nat * string).

Fixpoint group (i : nat) (cs : captures) : option string :=
  match cs with
  | [] => None
  | (j, s) :: cs' => if Nat.eqb i j then Some s else group i cs'
  end.

(** Removes the prefix [p] from [s] when [s] starts with it. *)
Fixpoint strip_prefix (p s : string) : option string :=
  match p, s with
  | EmptyString, _ => Some s
  | String a p', String b s' =>
      if Ascii.eqb a b then strip_prefix p' s' else None
  | String _ _, EmptyString => None
  end.

(** The part of [s] consumed when the rest of the input is [rest]. *)
Definition consumed (s rest : string) : string :=
  Py.take (String.length s - String.length rest) s.

(** [matches r cs s k]: match [r] at the start of [s], then hand the
    captures and the rest of the input to [k]; when [k] fails, the next
    way of matching [r] is tried. *)
Fixpoint matches (r : regex) (cs : captures) (s : string)
    (k : captures -> string -> option (captures * string))
    : option (captures * string) :=
  match r with
  | Lit p =>
      match strip_prefix p s with
      | Some rest => k cs rest
      | None => None
      end
  | Star c =>
      (fix star (s : string) :=
         match s with
         | String a s' =>
             if cmatch c a then
               match star s' with
               | Some m => Some m
               | None => k cs s
               end
             else k cs s
         | EmptyString => k cs s
         end) s
  | Plus c =>
      match s with
      | String a s' =>
          if cmatch c a then
            (fix star (s : string) :=
               match s with
               | String a s' =>
                   if cmatch c a then
                     match star s' with
                     | Some m => Some m
                     | None => k cs s
                     end
                   else k cs s
               | EmptyString => k cs s
               end) s'
          else None
      | EmptyString => None
      end
  | StarLazy c =>
      (fix lazy (s : string) :=
         match k cs s with
         | Some m => Some m
         | None =>
             match s with
             | String a s' => if cmatch c a then lazy s' else None
             | EmptyString => None
             end
         end) s
  | Seq r1 r2 => matches r1 cs s (fun cs' s' => matches r2 cs' s' k)
  | Alt r1 r2 =>
      match matches r1 cs s k with
      | Some m => Some m
      | None => matches r2 cs s k
      end
  | Group i r =>
      matches r cs s (fun cs' s' => k ((i, consumed s s') :: cs') s')
  | Ahead r =>
      match matches r cs s (fun cs' s' => Some (cs', s')) with
      | Some _ => k cs s
      | None => None
      end
  end.

(** A match of [r] at the very start of [s]: the captures and the rest. *)
Definition match_here (r : regex) (s : string) : option (captures * string) :=
  matches r [] s (fun cs rest => Some (cs, rest)).

(** [re.search(r, s)]: the leftmost match. *)
Fixpoint search (r : regex) (s : string) : option (captures * string) :=
  match match_here r s with
  | Some m => Some m
  | None =>
      match s with
      | String _ s' => search r s'
      | EmptyString => None
      end
  end.

(** [re.search(r, s).group(1)] when there is a match. *)
Definition search_group1 (r : regex) (s : string) : option string :=
  match search r s with
  | Some (cs, _) => group 1 cs
  | None => None
  end.

(** [re.findall(r, s)] for a pattern with two groups. [skip] counts the
    characters of [s] that belong to the previous match. *)
Fixpoint findall2_from (r : regex) (skip : nat) (s : string)
    : list (string * string) :=
  match skip with
  | S n =>
      match s with
      | String _ s' => findall2_from r n s'
      | EmptyString => []
      end
  | O =>
      match match_here r s with
      | Some (cs, rest) =>
          (default EmptyString (group 1 cs), default EmptyString (group 2 cs))
          :: match s with
             | String _ s' =>
                 findall2_from r (String.length s' - String.length rest) s'
             | EmptyString => []
             end
      | None =>
          match s with
          | String _ s' => findall2_from r 0 s'
          | EmptyString => []
          end
      end
  end.

Definition findall2 (r : regex) (s : string) : list (string * string) :=
  findall2_from r 0 s.

(** [re.sub(r, '', s)]: every match, left to right and not overlapping,
    is removed. *)
Fixpoint remove_from (r : regex) (skip : nat) (s : string) : string :=
  match skip with
  | S n =>
      match s with
      | String _ s' => remove_from r n s'
      | EmptyString => EmptyString
      end
  | O =>
      match match_here r s with
      | Some (_, rest) =>
          match s with
          | String c s' =>
              if (String.length s =? String.length rest)%nat
              then String c (remove_from r 0 s')
              else remove_from r (String.length s' - String.length rest) s'
          | EmptyString => EmptyString
          end
      | None =>
          match s with
          | String c s' => String c (remove_from r 0 s')
          | EmptyString => EmptyString
          end
      end
  end.

Definition remove_all (r : regex) (s : string) : string := remove_from r 0 s.

(** The concatenation [r1 r2 ... rn]. *)
Fixpoint cat (rs : list regex) : regex :=
  match rs with
  | [] => Lit EmptyString
  | [r] => r
  | r :: rs' => Seq r (cat rs')
  end.

End Re.


(** ** The patterns of the scraper

    In the comments of this module an apostrophe stands for the double
    quote of the source pattern. *)

Module Pat.
Import Re.

Definition gt : ascii := ">"%char.

(** [(<div[^>]*class='bw-session'[^>]*>)(.*?)
     (?=<div[^>]*class='bw-session'|<div class='bw-widget__day|</body>)]
    with [re.DOTALL]. *)
Definition session_pattern : regex :=
  cat [ Group 1 (cat [ Lit "<div"; Star (NotChar gt);
                       Lit (Py.q "class='bw-session'");
                       Star (NotChar gt); Lit ">" ]);
        Group 2 (StarLazy AnyChar);
        Ahead (Alt (cat [ Lit "<div"; Star (NotChar gt);
                          Lit (Py.q "class='bw-session'") ])
              (Alt (Lit (Py.q "<div class='bw-widget__day"))
                   (Lit "</body>"))) ].

(** [data-bw-widget-mbo-class-name='([^']+)'] *)
Definition raw_name_pattern : regex :=
  cat [ Lit (Py.q "data-bw-widget-mbo-class-name='");
        Group 1 (Plus (NotChar Py.dquote)); Lit (Py.q "'") ].

(** [hc_starttime[^>]*datetime='([^']+)'] *)
Definition start_pattern : regex :=
  cat [ Lit "hc_starttime"; Star (NotChar gt); Lit (Py.q "datetime='");
        Group 1 (Plus (NotChar Py.dquote)); Lit (Py.q "'") ].

(** [hc_endtime[^>]*datetime='([^']+)'] *)
Definition end_pattern : regex :=
  cat [ Lit "hc_endtime"; Star (NotChar gt); Lit (Py.q "datetime='");
        Group 1 (Plus (NotChar Py.dquote)); Lit (Py.q "'") ].

(** [class='bw-session__name'>(.*?)</div>] with [re.DOTALL]. *)
Definition name_pattern : regex :=
  cat [ Lit (Py.q "class='bw-session__name'>");
        Group 1 (StarLazy AnyChar); Lit "</div>" ].

(** [class='bw-session__staff'[^>]*>(.*?)</div>] with [re.DOTALL]. *)
Definition staff_pattern : regex :=
  cat [ Lit (Py.q "class='bw-session__staff'"); Star (NotChar gt); Lit ">";
        Group 1 (StarLazy AnyChar); Lit "</div>" ].

(** [<span[^>]*>.*?</span>] without flags. *)
Definition span_pattern : regex :=
  cat [ Lit "<span"; Star (NotChar gt); Lit ">"; StarLazy Dot; Lit "</span>" ].

(** [<[^>]+>] *)
Definition tag_pattern : regex :=
  cat [ Lit "<"; Plus (NotChar gt); Lit ">" ].

End Pat.

(** ** Uncaught exceptions *)

Inductive exn : Type := TypeError | KeyError | OverflowError.

Inductive result (A : Type) : Type :=
| Ok (a : A)
| Raise (e : exn).

Arguments Ok {A} a.
Arguments Raise {A} e.

#[global] Instance result_ret : MRet result := fun A a => Ok a.

#[global] Instance result_bind : MBind result := fun A B f m =>
  match m with
  | Ok a => f a
  | Raise e => Raise e
  end.

(** ** Dates and times: the part of [datetime] that the scraper uses *)

Module Datetime.

(** A [datetime] object; [utcoffset] is [None] for a naive value and
    the offset in microseconds for an aware one. *)
Record datetime : Type := mk {
  year : Z;
  month : Z;
  day : Z;
  hour : Z;
  minute : Z;
  second : Z;
  microsecond : Z;
  utcoffset : option Z
}.

Definition is_leap (y : Z) : bool :=
  (y mod 4 =? 0) && (negb (y mod 100 =? 0) || (y mod 400 =? 0)).

Definition days_in_month (y m : Z) : Z :=
  if m =? 2 then (if is_leap y then 29 else 28)
  else if (m =? 4) || (m =? 6) || (m =? 9) || (m =? 11) then 30
  else 31.

(** Days of the year before the first day of month [m]. *)
Definition days_before_month (y m : Z) : Z :=
  nth (Z.to_nat m) [0; 0; 31; 59; 90; 120; 151; 181; 212; 243; 273; 304; 334] 0
  + (if (2 <? m) && is_leap y then 1 else 0).

(** Days before January 1st of year [y]. *)
Definition days_before_year (y : Z) : Z :=
  let y' := y - 1 in y' * 365 + y' / 4 - y' / 100 + y' / 400.

(** Proleptic Gregorian ordinal: January 1st of year 1 is day 1. *)
Definition ymd2ord (y m d : Z) : Z :=
  days_before_year y + days_before_month y m + d.

Definition toordinal (t : datetime) : Z := ymd2ord (year t) (month t) (day t).

Definition MAXORDINAL : Z := 3652059.

(** The inverse of [ymd2ord], as the library computes it. *)
Definition ord2ymd (n : Z) : Z * Z * Z :=
  let n := n - 1 in
  let n400 := n / 146097 in
  let n := n mod 146097 in
  let n100 := n / 36524 in
  let n := n mod 36524 in
  let n4 := n / 1461 in
  let n := n mod 1461 in
  let n1 := n / 365 in
  let n := n mod 365 in
  let y := n400 * 400 + 1 + n100 * 100 + n4 * 4 + n1 in
  if (n1 =? 4) || (n100 =? 4) then (y - 1, 12, 31)
  else
    let leapyear := (n1 =? 3) && (negb (n4 =? 24) || (n100 =? 3)) in
    let leap m := if (2 <? m) && leapyear then 1 else 0 in
    let before m :=
      nth (Z.to_nat m)
        [0; 0; 31; 59; 90; 120; 151; 181; 212; 243; 273; 304; 334] 0 + leap m in
    let m := Z.shiftr (n + 50) 5 in
    let m := if n <? before m then m - 1 else m in
    (y, m, n - before m + 1).

Definition US_PER_SECOND : Z := 1000000.
Definition US_PER_MINUTE : Z := 60 * US_PER_SECOND.
Definition US_PER_DAY : Z := 86400 * US_PER_SECOND.

(** Microseconds of the wall-clock reading since day 0, midnight. *)
Definition wall_us (t : datetime) : Z :=
  ((toordinal t * 86400 + hour t * 3600 + minute t * 60 + second t)
   * US_PER_SECOND) + microsecond t.

(** [a - b] as a number of microseconds: two naive values are compared
    by their readings, two aware values after subtracting their
    offsets, and a naive and an aware value cannot be subtracted. *)
Definition sub (a b : datetime) : result Z :=
  match utcoffset a, utcoffset b with
  | None, None => Ok (wall_us a - wall_us b)
  | Some oa, Some ob => Ok (wall_us a - wall_us b + ob - oa)
  | _, _ => Raise TypeError
  end.

(** *** The floating-point part of [int(delta.total_seconds() / 60)]

    A [float] is a binary64 number, with the operations of the
    specification of floating-point arithmetic of the standard library
    (53 bits of precision, round to nearest, ties to even). *)
Definition float : Type := SpecFloat.spec_float.

(** An integer as a float with that significand and exponent 0; no
    rounding takes place here. *)
Definition float_of_int (n : Z) : float :=
  match n with
  | Z0 => SpecFloat.S754_zero false
  | Zpos p => SpecFloat.S754_finite false p 0
  | Zneg p => SpecFloat.S754_finite true p 0
  end.

(** [x / y], rounded once. *)
Definition float_div (x y : float) : float := SpecFloat.SFdiv 53 1024 x y.

(** [int(x)]: the integer part, towards zero. An infinity or a
    not-a-number does not arise from the difference of two dates, which
    is below [2^59] microseconds; they are given 0. *)
Definition int_of_float (x : float) : Z :=
  match x with
  | SpecFloat.S754_finite sign m e =>
      let magnitude :=
        match e with
        | Zneg k => Z.shiftr (Zpos m) (Zpos k)
        | _ => Z.shiftl (Zpos m) e
        end in
      if sign then - magnitude else magnitude
  | _ => 0
  end.

(** [x] is not a number of the other sign: when it is finite and not
    zero, its sign bit is [sign]. *)
Definition signed (sign : bool) (x : float) : Prop :=
  match x with
  | SpecFloat.S754_finite s _ _ => s = sign
  | _ => True
  end.

(** [delta.total_seconds()] for a difference of [us] microseconds: the
    true division of two integers, which the interpreter rounds
    once. *)
Definition total_seconds (us : Z) : float :=
  float_div (float_of_int us) (float_of_int US_PER_SECOND).

(** [int(delta.total_seconds() / 60)] *)
Definition whole_minutes (us : Z) : Z :=
  int_of_float (float_div (total_seconds us) (float_of_int 60)).

(** [int((a - b).total_seconds() / 60)] *)
Definition minutes_between (a b : datetime) : result Z :=
  d ← sub a b; Ok (whole_minutes d).

(** [t + timedelta(minutes=m)] *)
Definition add_minutes (t : datetime) (m : Z) : result datetime :=
  let total := wall_us t + m * US_PER_MINUTE in
  let days := total / US_PER_DAY in
  let rest := total mod US_PER_DAY in
  if (0 <? days) && (days <=? MAXORDINAL) then
    let '(y, mo, d) := ord2ymd days in
    let secs := rest / US_PER_SECOND in
    Ok (mk y mo d (secs / 3600) (secs mod 3600 / 60) (secs mod 60)
           (rest mod US_PER_SECOND) (utcoffset t))
  else Raise OverflowError.

(** *** Formatting *)

Definition digit (n : Z) : ascii := ascii_of_nat (48 + Z.to_nat (n mod 10)).

(** The last [w] decimal digits of [n]. *)
Fixpoint zpad (w : nat) (n : Z) : string :=
  match w with
  | O => EmptyString
  | S w' => zpad w' (n / 10) +:+ String (digit n) EmptyString
  end.

(** [%Y] as the C library prints it: no padding. *)
Definition fmt_Y (t : datetime) : string :=
  Py.lstrip_char "0" (zpad 4 (year t)).

(** [%I]: the hour on a 12-hour clock, two digits. *)
Definition fmt_I (t : datetime) : string :=
  let h := hour t mod 12 in zpad 2 (if h =? 0 then 12 else h).

(** [%p] *)
Definition fmt_p (t : datetime) : string :=
  if hour t <? 12 then "AM" else "PM".

(** [t.weekday()]: Monday is 0. *)
Definition weekday (t : datetime) : Z := (toordinal t + 6) mod 7.

(** [%A] *)
Definition fmt_A (t : datetime) : string :=
  nth (Z.to_nat (weekday t))
    ["Monday"; "Tuesday"; "Wednesday"; "Thursday"; "Friday"; "Saturday";
     "Sunday"] EmptyString.

(** [t.strftime('%Y-%m-%d')] *)
Definition strftime_date (t : datetime) : string :=
  fmt_Y t +:+ "-" +:+ zpad 2 (month t) +:+ "-" +:+ zpad 2 (day t).

(** [t.strftime('%I:%M %p')] *)
Definition strftime_clock (t : datetime) : string :=
  fmt_I t +:+ ":" +:+ zpad 2 (minute t) +:+ " " +:+ fmt_p t.

(** [t.strftime('%Y%m%dT%H%M%S')] *)
Definition strftime_stamp (t : datetime) : string :=
  fmt_Y t +:+ zpad 2 (month t) +:+ zpad 2 (day t) +:+ "T"
  +:+ zpad 2 (hour t) +:+ zpad 2 (minute t) +:+ zpad 2 (second t).

End Datetime.

(** [datetime.fromisoformat]: [None] stands for [ValueError], the only
    exception it raises on a string. *)
Class IsoParser : Type :=
  fromisoformat : string -> option Datetime.datetime.

(** An instance: the extended format
    [YYYY-MM-DD[*HH[:MM[:SS[.fff[fff]]]][+HH:MM[:SS[.ffffff]]]]],
    where [*] is any one character. Every interpreter version accepts
    these strings with the value computed here. *)
Module Iso.
Import Datetime.

Definition digit_value (c : ascii) : option Z :=
  let n := Py.code c in
  if (48 <=? n)%nat && (n <=? 57)%nat then Some (Z.of_nat n - 48) else None.

(** Reads exactly [w] decimal digits. *)
Fixpoint number (w : nat) (acc : Z) (s : string) : option (Z * string) :=
  match w with
  | O => Some (acc, s)
  | S w' =>
      match s with
      | String c s' =>
          match digit_value c with
          | Some d => number w' (acc * 10 + d) s'
          | None => None
          end
      | EmptyString => None
      end
  end.

(** Expects the character [c]. *)
Definition expect (c : ascii) (s : string) : option string :=
  match s with
  | String a s' => if Ascii.eqb a c then Some s' else None
  | EmptyString => None
  end.

(** The fraction after the seconds: nothing, or a point and three or
    six digits. The result is in microseconds. *)
Definition fraction (s : string) : option Z :=
  match s with
  | EmptyString => Some 0
  | String c s' =>
      if Ascii.eqb c "."%char then
        if (String.length s' =? 3)%nat then
          '(n, _) ← number 3 0 s'; Some (n * 1000)
        else if (String.length s' =? 6)%nat then
          '(n, _) ← number 6 0 s'; Some n
        else None
      else None
  end.

(** [HH[:MM[:SS[.fff[fff]]]]] as (hour, minute, second, microsecond). *)
Definition hh_mm_ss_ff (s : string) : option (Z * Z * Z * Z) :=
  '(h, s1) ← number 2 0 s;
  match s1 with
  | EmptyString => Some (h, 0, 0, 0)
  | _ =>
      s2 ← expect ":" s1;
      '(m, s3) ← number 2 0 s2;
      match s3 with
      | EmptyString => Some (h, m, 0, 0)
      | _ =>
          s4 ← expect ":" s3;
          '(sec, s5) ← number 2 0 s4;
          us ← fraction s5;
          Some (h, m, sec, us)
      end
  end.

(** Splits a time string at its first [-], or else at its first [+]:
    the time, and the sign and text of the offset when there is one. *)
Fixpoint split_at (c : ascii) (s : string) : option (string * string) :=
  match s with
  | EmptyString => None
  | String a s' =>
      if Ascii.eqb a c then Some (EmptyString, s')
      else '(l, r) ← split_at c s'; Some (String a l, r)
  end.

Definition split_offset (s : string) : string * option (Z * string) :=
  match split_at "-" s with
  | Some (t, z) => (t, Some (-1, z))
  | None =>
      match split_at "+" s with
      | Some (t, z) => (t, Some (1, z))
      | None => (s, None)
      end
  end.

(** The offset in microseconds; it lies strictly within a day. *)
Definition offset (sign : Z) (z : string) : option Z :=
  let n := String.length z in
  if (n =? 5)%nat || (n =? 8)%nat || (n =? 15)%nat then
    '(h, m, sec, us) ← hh_mm_ss_ff z;
    let off := sign * ((h * 3600 + m * 60 + sec) * US_PER_SECOND + us) in
    if (- US_PER_DAY <? off) && (off <? US_PER_DAY) then Some off else None
  else None.

Definition parse_time (s : string) : option (Z * Z * Z * Z * option Z) :=
  let '(t, z) := split_offset s in
  '(h, m, sec, us) ← hh_mm_ss_ff t;
  match z with
  | None => Some (h, m, sec, us, None)
  | Some (sign, ztext) => off ← offset sign ztext; Some (h, m, sec, us, Some off)
  end.

Definition valid (t : datetime) : bool :=
  (1 <=? year t) && (year t <=? 9999)
  && (1 <=? month t) && (month t <=? 12)
  && (1 <=? day t) && (day t <=? days_in_month (year t) (month t))
  && (hour t <? 24) && (minute t <? 60) && (second t <? 60).

Definition parse (s : string) : option datetime :=
  '(y, s1) ← number 4 0 s;
  s2 ← expect "-" s1;
  '(mo, s3) ← number 2 0 s2;
  s4 ← expect "-" s3;
  '(d, s5) ← number 2 0 s4;
  t ← match s5 with
      | EmptyString => Some (mk y mo d 0 0 0 0 None)
      | String _ tstr =>
          '(h, mi, sec, us, off) ← parse_time tstr;
          Some (mk y mo d h mi sec us off)
      end;
  if valid t then Some t else None.

End Iso.

Definition iso_extended : IsoParser := Iso.parse.

(** ** Class records and configuration *)

(** One scheduled class: the dict built by [parse_bw_widget_html]. A
    field is [None] when the key is absent. *)
Record ClassRecord : Type := {
  name : option string;
  raw_name : option string;
  start_iso : option string;
  end_iso : option string;
  date : option string;
  day : option string;
  time : option string;
  start_hour : option Z;
  instructor : option string;
  source : option string;
  end_time : option string;
  duration_minutes : option Z
}.

(** The keys of [config.yaml] that the pipeline reads; [None] is an
    absent key. *)
Record Config : Type := {
  include_classes : option (list string);
  exclude_classes : option (list string);
  earliest_hour : option Z;
  latest_hour : option Z;
  calendar_name : option string;
  default_class_duration_minutes : option Z
}.

(** [d.get(key, fallback)] *)
Definition get {A : Type} (field : option A) (fallback : A) : A :=
  match field with
  | Some value => value
  | None => fallback
  end.

(** ** Session extraction: [parse_bw_widget_html] *)

Section Extraction.
Context {iso : IsoParser} {lib : StrLib}.

(** The display name: the text of the name block without its [span]
    elements and tags, or else the title-cased machine name. *)
Definition display_name_of (raw_name content : string) : string :=
  let display_name :=
    match Re.search_group1 Pat.name_pattern content with
    | Some block =>
        let text := Re.remove_all Pat.span_pattern block in
        strip (Re.remove_all Pat.tag_pattern text)
    | None => EmptyString
    end in
  if Py.truthy display_name then display_name
  else title (Py.replace_char "_" " " raw_name).

Definition instructor_of (content : string) : string :=
  match Re.search_group1 Pat.staff_pattern content with
  | Some block => strip (Re.remove_all Pat.tag_pattern block)
  | None => EmptyString
  end.

(** The record built from a start timestamp that parsed. *)
Definition base_record (label display_name raw start_text end_text staff : string)
    (start_dt : Datetime.datetime) : ClassRecord :=
  {| name := Some display_name;
     raw_name := Some raw;
     start_iso := Some start_text;
     end_iso := Some end_text;
     date := Some (Datetime.strftime_date start_dt);
     day := Some (Datetime.fmt_A start_dt);
     time := Some (Py.lstrip_char "0" (Datetime.strftime_clock start_dt));
     start_hour := Some (Datetime.hour start_dt);
     instructor := Some staff;
     source := Some label;
     end_time := None;
     duration_minutes := None |}.

Definition with_end (cls : ClassRecord) (finish : string) (minutes : Z)
    : ClassRecord :=
  {| name := name cls; raw_name := raw_name cls; start_iso := start_iso cls;
     end_iso := end_iso cls; date := date cls; day := day cls;
     time := time cls; start_hour := start_hour cls;
     instructor := instructor cls; source := source cls;
     end_time := Some finish;
     duration_minutes := Some minutes |}.

(** The body of the loop over the matches: [Ok None] is [continue],
    [Ok (Some cls)] is [classes.append(cls)]. *)
Definition parse_session (label : string) (m : string * string)
    : result (option ClassRecord) :=
  let '(opening_tag, content) := m in
  let raw := get (Re.search_group1 Pat.raw_name_pattern opening_tag) EmptyString in
  match Re.search_group1 Pat.start_pattern content with
  | None => Ok None
  | Some start_text =>
      let end_text :=
        get (Re.search_group1 Pat.end_pattern content) EmptyString in
      let display_name := display_name_of raw content in
      let staff := instructor_of content in
      match fromisoformat start_text with
      | None => Ok None
      | Some start_dt =>
          let cls :=
            base_record label display_name raw start_text end_text staff
              start_dt in
          if Py.truthy end_text then
            match fromisoformat end_text with
            | Some end_dt =>
                minutes ← Datetime.minutes_between end_dt start_dt;
                Ok (Some (with_end cls
                            (Py.lstrip_char "0" (Datetime.strftime_clock end_dt))
                            minutes))
            | None => Ok (Some cls)
            end
          else Ok (Some cls)
      end
  end.

(** The loop: records are appended in the order of the matches. *)
Fixpoint parse_sessions (label : string) (ms : list (string * string))
    : result (list ClassRecord) :=
  match ms with
  | [] => Ok []
  | m :: ms' =>
      found ← parse_session label m;
      classes ← parse_sessions label ms';
      Ok (option_list found ++ classes)
  end.

(** [re.findall(session_pattern, html, re.DOTALL)] *)
Definition session_matches (html : string) : list (string * string) :=
  Re.findall2 Pat.session_pattern html.

Definition parse_bw_widget_html (html label : string)
    : result (list ClassRecord) :=
  parse_sessions label (session_matches html).

(** A fragment without a usable start: the start pattern finds nothing
    in its content, or what it finds does not parse. *)
Definition lacks_start (content : string) : Prop :=
  Re.search_group1 Pat.start_pattern content = None
  \/ exists start_text,
       Re.search_group1 Pat.start_pattern content = Some start_text
       /\ fromisoformat start_text = None.

(** The duration carried by a record, explained: both timestamps of the
    record parsed, the duration is what [int(total_seconds() / 60)]
    gives for the difference between end and start, and it has the sign
    of that difference: it is zero or negative when the end is not
    after the start, and it is not negative when the end is not before
    the start. *)
Definition duration_explained (cls : ClassRecord) (d : Z) : Prop :=
  exists start_text end_text start_dt end_dt delta,
    start_iso cls = Some start_text
    /\ end_iso cls = Some end_text
    /\ fromisoformat start_text = Some start_dt
    /\ fromisoformat end_text = Some end_dt
    /\ Datetime.sub end_dt start_dt = Ok delta
    /\ d = Datetime.whole_minutes delta
    /\ (delta <= 0 -> d <= 0)
    /\ (0 <= delta -> 0 <= d).

(** A fragment with a usable start: the start pattern finds a value in
    its content and the value parses. *)
Definition has_start (content : string) : bool :=
  match Re.search_group1 Pat.start_pattern content with
  | Some start_text => bool_decide (is_Some (fromisoformat start_text))
  | None => false
  end.

(** The fragments with a usable start, in their order. *)
Definition usable (ms : list (string * string)) : list (string * string) :=
  List.filter (fun m => has_start (snd m)) ms.

(** [cls] is the record of the fragment [m]: every key that does not
    depend on the end timestamp is present, with the value read from
    the fragment. *)
Definition record_of (label : string) (m : string * string)
    (cls : ClassRecord) : Prop :=
  exists start_text start_dt,
    Re.search_group1 Pat.start_pattern (snd m) = Some start_text
    /\ fromisoformat start_text = Some start_dt
    /\ start_iso cls = Some start_text
    /\ raw_name cls
       = Some (get (Re.search_group1 Pat.raw_name_pattern (fst m)) EmptyString)
    /\ name cls
       = Some (display_name_of
                 (get (Re.search_group1 Pat.raw_name_pattern (fst m))
                    EmptyString)
                 (snd m))
    /\ end_iso cls
       = Some (get (Re.search_group1 Pat.end_pattern (snd m)) EmptyString)
    /\ date cls = Some (Datetime.strftime_date start_dt)
    /\ day cls = Some (Datetime.fmt_A start_dt)
    /\ time cls = Some (Py.lstrip_char "0" (Datetime.strftime_clock start_dt))
    /\ start_hour cls = Some (Datetime.hour start_dt)
    /\ instructor cls = Some (instructor_of (snd m))
    /\ source cls = Some label.

(** A fragment whose two timestamps parse, exactly one of them with a
    UTC offset. *)
Definition mixed_offsets (content : string) : Prop :=
  exists start_text end_text start_dt end_dt,
    Re.search_group1 Pat.start_pattern content = Some start_text
    /\ Re.search_group1 Pat.end_pattern content = Some end_text
    /\ fromisoformat start_text = Some start_dt
    /\ fromisoformat end_text = Some end_dt
    /\ (Datetime.utcoffset start_dt = None
        <-> Datetime.utcoffset end_dt <> None).

(** The same as a test. *)
Definition mixes (content : string) : bool :=
  match Re.search_group1 Pat.start_pattern content,
        Re.search_group1 Pat.end_pattern content with
  | Some start_text, Some end_text =>
      match fromisoformat start_text, fromisoformat end_text with
      | Some start_dt, Some end_dt =>
          xorb (bool_decide (is_Some (Datetime.utcoffset start_dt)))
               (bool_decide (is_Some (Datetime.utcoffset end_dt)))
      | _, _ => false
      end
  | _, _ => false
  end.

End Extraction.

(** ** Deduplication: the loop of [main] over [all_classes] *)

(** The identity key [(cls.get('start_iso', ''), cls.get('name', ''))]. *)
Definition key (cls : ClassRecord) : string * string :=
  (get (start_iso cls) EmptyString, get (name cls) EmptyString).

(** One iteration: the state is the set [seen] and the list [unique]. *)
Definition dedupe_step (st : gset (string * string) * list ClassRecord)
    (cls : ClassRecord) : gset (string * string) * list ClassRecord :=
  let '(seen, unique) := st in
  if decide (key cls ∈ seen) then (seen, unique)
  else ({[key cls]} ∪ seen, unique ++ [cls]).

Definition dedupe (all_classes : list ClassRecord) : list ClassRecord :=
  snd (fold_left dedupe_step all_classes (∅, [])).

(** The keys of a list of records, in order. *)
Definition keys (l : list ClassRecord) : list (string * string) := key <$> l.

(** ** Preference filter: [filter_classes] *)

Section Filter.
Context {lib : StrLib}.

(** [[c.lower().strip() for c in patterns if c]] *)
Definition normalise (patterns : list string) : list string :=
  map (fun c => strip (lower c)) (List.filter Py.truthy patterns).

(** [any(p in combined for p in patterns)] *)
Definition any_in (patterns : list string) (combined : string) : bool :=
  existsb (fun p => Py.contains p combined) patterns.

Definition nonempty {A : Type} (l : list A) : bool :=
  match l with [] => false | _ => true end.

Definition combined_name (cls : ClassRecord) : string :=
  lower (get (name cls) EmptyString) +:+ " "
  +:+ lower (get (raw_name cls) EmptyString).

(** The body of the loop: [false] is [continue], [true] is
    [filtered.append(cls)]. *)
Definition keeps (include exclude : list string) (earliest latest : option Z)
    (cls : ClassRecord) : bool :=
  let combined := combined_name cls in
  if nonempty include && negb (any_in include combined) then false
  else if nonempty exclude && any_in exclude combined then false
  else
    match start_hour cls with
    | Some hour =>
        if match earliest with Some e => hour <? e | None => false end
        then false
        else if match latest with Some l => l <=? hour | None => false end
        then false
        else true
    | None => true
    end.

(** The lists [include] and [exclude] of [filter_classes]. *)
Definition include_patterns (config : Config) : list string :=
  normalise (get (include_classes config) []).

Definition exclude_patterns (config : Config) : list string :=
  normalise (get (exclude_classes config) []).

Definition filter_classes (classes : list ClassRecord) (config : Config)
    : list ClassRecord :=
  let include := include_patterns config in
  let exclude := exclude_patterns config in
  let earliest := earliest_hour config in
  let latest := latest_hour config in
  if negb (nonempty include) && negb (nonempty exclude)
     && negb (bool_decide (is_Some earliest))
     && negb (bool_decide (is_Some latest))
  then classes
  else List.filter (keeps include exclude earliest latest) classes.

(** The test that makes the filter return its input. *)
Definition nothing_configured (config : Config) : Prop :=
  include_patterns config = [] /\ exclude_patterns config = []
  /\ earliest_hour config = None /\ latest_hour config = None.

(** The name checks of the filter, as the specification words them: an
    include pattern occurs in the combined name when any is configured,
    and no exclude pattern does. *)
Definition passes_name_checks (config : Config) (cls : ClassRecord) : Prop :=
  let combined :=
    lower (get (name cls) EmptyString) +:+ " "
    +:+ lower (get (raw_name cls) EmptyString) in
  (include_patterns config = []
   \/ exists p, p ∈ include_patterns config /\ Py.contains p combined = true)
  /\ forall p, p ∈ exclude_patterns config -> Py.contains p combined = false.

End Filter.

(** The two halves of the loop body. *)
Definition name_ok (include exclude : list string) (combined : string) : bool :=
  negb (nonempty include && negb (any_in include combined))
  && negb (nonempty exclude && any_in exclude combined).

Definition hour_ok (earliest latest : option Z) (hour : Z) : bool :=
  negb match earliest with Some e => hour <? e | None => false end
  && negb match latest with Some l => l <=? hour | None => false end.

(** ** MD5 (RFC 1321), for [hashlib.md5(...).hexdigest()] *)

Module MD5.

Definition mask32 (x : Z) : Z := Z.land x 4294967295.

Definition rotl (x c : Z) : Z :=
  mask32 (Z.lor (Z.shiftl x c) (Z.shiftr x (32 - c))).

Definition not32 (x : Z) : Z := Z.lxor x 4294967295.

(** The shift of round [i]. *)
Definition shift (i : nat) : Z :=
  nth (Nat.div i 16 * 4 + Nat.modulo i 4)
    [7; 12; 17; 22; 5; 9; 14; 20; 4; 11; 16; 23; 6; 10; 15; 21] 0.

(** [floor(2^32 * abs(sin(i + 1)))] for [i] from 0 to 63. *)
Definition K : list Z :=
  [ 3614090360; 3905402710; 606105819; 3250441966; 4118548399; 1200080426;
    2821735955; 4249261313; 1770035416; 2336552879; 4294925233; 2304563134;
    1804603682; 4254626195; 2792965006; 1236535329; 4129170786; 3225465664;
    643717713; 3921069994; 3593408605; 38016083; 3634488961; 3889429448;
    568446438; 3275163606; 4107603335; 1163531501; 2850285829; 4243563512;
    1735328473; 2368359562; 4294588738; 2272392833; 1839030562; 4259657740;
    2763975236; 1272893353; 4139469664; 3200236656; 681279174; 3936430074;
    3572445317; 76029189; 3654602809; 3873151461; 530742520; 3299628645;
    4096336452; 1126891415; 2878612391; 4237533241; 1700485571; 2399980690;
    4293915773; 2240044497; 1873313359; 4264355552; 2734768916; 1309151649;
    4149444226; 3174756917; 718787259; 3951481745 ].

Definition bytes_of (s : string) : list Z :=
  map (fun c => Z.of_nat (nat_of_ascii c)) (list_ascii_of_string s).

(** [w] bytes of [x], least significant first. *)
Fixpoint le_bytes (w : nat) (x : Z) : list Z :=
  match w with
  | O => []
  | S w' => Z.land x 255 :: le_bytes w' (Z.shiftr x 8)
  end.

Fixpoint le_word (bs : list Z) : Z :=
  match bs with
  | [] => 0
  | b :: bs' => b + 256 * le_word bs'
  end.

(** The message followed by a 1 bit, zeros up to 56 modulo 64 bytes and
    the length in bits on 64 bits. *)
Definition pad (msg : list Z) : list Z :=
  let n := length msg in
  let zeros := Nat.modulo (64 + 55 - Nat.modulo n 64) 64 in
  msg ++ [128] ++ repeat 0 zeros
      ++ le_bytes 8 (Z.land (8 * Z.of_nat n) 18446744073709551615).

(** The sixteen words of a 64-byte block. *)
Fixpoint words (n : nat) (block : list Z) : list Z :=
  match n with
  | O => []
  | S n' => le_word (firstn 4 block) :: words n' (skipn 4 block)
  end.

Definition state : Type := Z * Z * Z * Z.

Definition round (M : list Z) (st : state) (i : nat) : state :=
  let '(A, B, C, D) := st in
  let '(F, g) :=
    if (i <? 16)%nat then
      (Z.lor (Z.land B C) (Z.land (not32 B) D), i)
    else if (i <? 32)%nat then
      (Z.lor (Z.land D B) (Z.land (not32 D) C), Nat.modulo (5 * i + 1) 16)
    else if (i <? 48)%nat then
      (Z.lxor B (Z.lxor C D), Nat.modulo (3 * i + 5) 16)
    else
      (Z.lxor C (Z.lor B (not32 D)), Nat.modulo (7 * i) 16) in
  let F := mask32 (F + A + nth i K 0 + nth g M 0) in
  (D, mask32 (B + rotl F (shift i)), B, C).

Definition compress (st : state) (block : list Z) : state :=
  let '(a0, b0, c0, d0) := st in
  let '(A, B, C, D) := fold_left (round (words 16 block)) (seq 0 64) st in
  (mask32 (a0 + A), mask32 (b0 + B), mask32 (c0 + C), mask32 (d0 + D)).

(** The blocks of a padded message; [n] bounds their number. *)
Fixpoint blocks (n : nat) (bs : list Z) : list (list Z) :=
  match n with
  | O => []
  | S n' =>
      match bs with
      | [] => []
      | _ => firstn 64 bs :: blocks n' (skipn 64 bs)
      end
  end.

Definition digest (msg : list Z) : list Z :=
  let padded := pad msg in
  let '(a, b, c, d) :=
    fold_left compress (blocks (length padded) padded)
      (1732584193, 4023233417, 2562383102, 271733878) in
  le_bytes 4 a ++ le_bytes 4 b ++ le_bytes 4 c ++ le_bytes 4 d.

Definition hex_digit (n : Z) : ascii :=
  ascii_of_nat (if n <? 10 then 48 + Z.to_nat n else 87 + Z.to_nat n).

Fixpoint hex (bs : list Z) : string :=
  match bs with
  | [] => EmptyString
  | b :: bs' =>
      String (hex_digit (Z.shiftr b 4)) (String (hex_digit (Z.land b 15)) (hex bs'))
  end.

(** [hashlib.md5(s.encode()).hexdigest()] *)
Definition hexdigest (s : string) : string := hex (digest (bytes_of s)).

End MD5.

(** ** Calendar serialisation: [generate_ics] *)

Definition of_bytes (bs : list nat) : string :=
  string_of_list_ascii (map ascii_of_nat bs).

(** The line separator of the document, carriage return and line feed. *)
Definition CRLF : string := of_bytes [13; 10]%nat.

Definition LOCATION : string :=
  "Tice Creek Fitness Center, 1751 Tice Creek Dr, Walnut Creek, CA 94595".

(** The default calendar name; its dash is U+2013, three bytes. *)
Definition default_cal_name : string :=
  "Tice Creek Fitness " +:+ of_bytes [226; 128; 147]%nat +:+ " Mom's Classes".

(** The two category markers: U+1F3CA, and U+1F3CB followed by U+FE0F. *)
Definition water_marker : string := of_bytes [240; 159; 143; 138]%nat.
Definition other_marker : string :=
  of_bytes [240; 159; 143; 139; 239; 184; 143]%nat.

(** The lines before the first entry: the document header and the
    time zone block. *)
Definition header (cal_name : string) : list string :=
  [ "BEGIN:VCALENDAR"; "VERSION:2.0";
    "PRODID:-//Tice Creek Calendar Sync//EN";
    "X-WR-CALNAME:" +:+ cal_name;
    "X-WR-TIMEZONE:America/Los_Angeles";
    "CALSCALE:GREGORIAN"; "METHOD:PUBLISH";
    "BEGIN:VTIMEZONE"; "TZID:America/Los_Angeles";
    "BEGIN:DAYLIGHT"; "TZOFFSETFROM:-0800"; "TZOFFSETTO:-0700";
    "TZNAME:PDT";
    "DTSTART:19700308T020000";
    "RRULE:FREQ=YEARLY;BYMONTH=3;BYDAY=2SU"; "END:DAYLIGHT";
    "BEGIN:STANDARD"; "TZOFFSETFROM:-0700"; "TZOFFSETTO:-0800";
    "TZNAME:PST";
    "DTSTART:19701101T020000";
    "RRULE:FREQ=YEARLY;BYMONTH=11;BYDAY=1SU"; "END:STANDARD";
    "END:VTIMEZONE" ].

Definition default_dur (config : Config) : Z :=
  get (default_class_duration_minutes config) 45.

(** The duration used for the end time. *)
Definition duration_of (config : Config) (cls : ClassRecord) : Z :=
  let dur := get (duration_minutes cls) (default_dur config) in
  if dur <=? 0 then default_dur config else dur.

Section Entry.
Context {lib : StrLib}.

Definition is_water (nm : string) : bool :=
  existsb (fun w => Py.contains w (lower nm)) ["aqua"; "water"; "swim"; "pool"].

Definition description_of (cls : ClassRecord) : string :=
  let staff := get (instructor cls) EmptyString in
  let label := get (source cls) EmptyString in
  let desc_parts :=
    (if Py.truthy staff then ["Instructor: " +:+ staff] else [])
    ++ (if Py.truthy label
        then ["Schedule: " +:+ title (Py.replace_char "_" " " label)]
        else [])
    ++ ["Auto-synced from ticefitnesscenter.com"] in
  Py.join "\n" desc_parts.

Definition uid_of (nm : string) (cls : ClassRecord) (start_text : string)
    : string :=
  let uid_str :=
    nm +:+ "-" +:+ get (date cls) EmptyString +:+ "-" +:+ start_text in
  Py.take 16 (MD5.hexdigest uid_str).

(** The lines of one entry. *)
Definition entry (now_utc nm : string) (cls : ClassRecord)
    (start_text : string) (start finish : Datetime.datetime) : list string :=
  [ "BEGIN:VEVENT";
    "UID:" +:+ uid_of nm cls start_text +:+ "@tice-creek-sync";
    "DTSTAMP:" +:+ now_utc;
    "DTSTART;TZID=America/Los_Angeles:" +:+ Datetime.strftime_stamp start;
    "DTEND;TZID=America/Los_Angeles:" +:+ Datetime.strftime_stamp finish;
    "SUMMARY:" +:+ (if is_water nm then water_marker else other_marker)
               +:+ " " +:+ nm;
    "DESCRIPTION:" +:+ description_of cls;
    "LOCATION:" +:+ LOCATION;
    "STATUS:CONFIRMED"; "TRANSP:TRANSPARENT";
    "END:VEVENT" ].

End Entry.

Section Serialisation.
Context {iso : IsoParser} {lib : StrLib}.

(** The start of a record that passes the gate of the loop: the text is
    present, not empty, and parses. *)
Definition start_of (cls : ClassRecord) : option Datetime.datetime :=
  let start_text := get (start_iso cls) EmptyString in
  if Py.truthy start_text then fromisoformat start_text else None.

(** The body of the loop: the lines added for one record; none when the
    record is skipped. *)
Definition vevent (config : Config) (now_utc : string) (cls : ClassRecord)
    : result (list string) :=
  match start_of cls with
  | None => Ok []
  | Some start =>
      finish ← Datetime.add_minutes start (duration_of config cls);
      nm ← match name cls with Some nm => Ok nm | None => Raise KeyError end;
      Ok (entry now_utc nm cls (get (start_iso cls) EmptyString) start finish)
  end.

Fixpoint vevents (config : Config) (now_utc : string)
    (classes : list ClassRecord) : result (list string) :=
  match classes with
  | [] => Ok []
  | cls :: rest =>
      block ← vevent config now_utc cls;
      blocks ← vevents config now_utc rest;
      Ok (block ++ blocks)
  end.

(** The list [lines] at the end of [generate_ics]; [now] is the reading
    of [datetime.utcnow()]. *)
Definition ics_lines (classes : list ClassRecord) (config : Config)
    (now : Datetime.datetime) : result (list string) :=
  let cal_name := get (calendar_name config) default_cal_name in
  let now_utc := Datetime.strftime_stamp now +:+ "Z" in
  blocks ← vevents config now_utc classes;
  Ok (header cal_name ++ blocks ++ ["END:VCALENDAR"]).

Definition generate_ics (classes : list ClassRecord) (config : Config)
    (now : Datetime.datetime) : result string :=
  lines ← ics_lines classes config now;
  Ok (Py.join CRLF lines).

(** A record that the loop skips: its start timestamp is missing, empty,
    or does not parse. *)
Definition bad_start (cls : ClassRecord) : Prop :=
  start_iso cls = None
  \/ start_iso cls = Some EmptyString
  \/ exists start_text,
       start_iso cls = Some start_text /\ fromisoformat start_text = None.

(** The records that pass the gate, in their order. *)
Definition gated (classes : list ClassRecord) : list ClassRecord :=
  List.filter (fun cls => bool_decide (is_Some (start_of cls))) classes.

(** [block] is the entry of [cls]: its start passed the gate, its end is
    the start plus the duration used, and it has a name. *)
Definition entry_of (config : Config) (now_utc : string) (cls : ClassRecord)
    (block : list string) : Prop :=
  exists start finish nm,
    start_of cls = Some start
    /\ Datetime.add_minutes start (duration_of config cls) = Ok finish
    /\ name cls = Some nm
    /\ block = entry now_utc nm cls (get (start_iso cls) EmptyString) start finish.

(** [block] shows the times of [cls]: the start that passed the gate,
    and an end that is the start plus the duration of the record when it
    is present and positive, and plus the configured default duration
    (45 when none is configured) otherwise. *)
Definition shows_times (config : Config) (cls : ClassRecord)
    (block : list string) : Prop :=
  exists start finish minutes,
    start_of cls = Some start
    /\ (forall d, duration_minutes cls = Some d -> 0 < d -> minutes = d)
    /\ (duration_minutes cls = None
        \/ (exists d, duration_minutes cls = Some d /\ d <= 0) ->
        minutes =
        match default_class_duration_minutes config with
        | Some m => m
        | None => 45
        end)
    /\ Datetime.add_minutes start minutes = Ok finish
    /\ length block = 11%nat
    /\ block !! 0%nat = Some "BEGIN:VEVENT"
    /\ block !! 3%nat =
       Some ("DTSTART;TZID=America/Los_Angeles:"
             +:+ Datetime.strftime_stamp start)
    /\ block !! 4%nat =
       Some ("DTEND;TZID=America/Los_Angeles:"
             +:+ Datetime.strftime_stamp finish)
    /\ block !! 10%nat = Some "END:VEVENT".

End Serialisation.

(** A record that the serialiser can turn into an entry as far as its
    keys go: its start passes the gate and it has a name. *)
Definition ready {iso : IsoParser} (cls : ClassRecord) : Prop :=
  is_Some (start_of cls) /\ is_Some (name cls).

(** The digits of a lower-case hexadecimal number. *)
Definition is_hex_digit (c : ascii) : bool :=
  let n := Py.code c in
  ((48 <=? n)%nat && (n <=? 57)%nat) || ((97 <=? n)%nat && (n <=? 102)%nat).

Fixpoint all_chars (f : ascii -> bool) (s : string) : bool :=
  match s with
  | EmptyString => true
  | String c s' => f c && all_chars f s'
  end.

(** ** Page scraping: [scrape_page] and [run_discovery]

    What the browser hands over once a schedule page has loaded: the
    markup of the main frame and, for every other frame in the order of
    [page.frames], its markup, or [None] when [frame.content()] raises.
    Loading, waiting, logging and the files of the discovery mode are
    left out. *)
Record Page : Type := {
  main_content : string;
  other_frames : list (option string)
}.

Section Scraping.
Context {iso : IsoParser} {lib : StrLib}.

(** [if classes: all_classes.extend(classes)] *)
Definition extend_if_any (all_classes classes : list ClassRecord)
    : list ClassRecord :=
  if nonempty classes then all_classes ++ classes else all_classes.

(** One iteration of the loop over the frames: whatever is raised
    inside [try] is caught, and the list is left as it was. *)
Definition scrape_frame (label : string) (all_classes : list ClassRecord)
    (frame : option string) : list ClassRecord :=
  match frame with
  | Some frame_html =>
      match parse_bw_widget_html frame_html label with
      | Ok classes => extend_if_any all_classes classes
      | Raise _ => all_classes
      end
  | None => all_classes
  end.

Definition scrape_page (page : Page) (label : string)
    : result (list ClassRecord) :=
  classes ← parse_bw_widget_html (main_content page) label;
  let all_classes := extend_if_any [] classes in
  Ok (fold_left (scrape_frame label) (other_frames page) all_classes).

(** The records returned by [run_discovery]; the list of the main
    frame is extended in place. *)
Definition run_discovery (page : Page) (label : string)
    : result (list ClassRecord) :=
  classes ← parse_bw_widget_html (main_content page) label;
  Ok (fold_left (scrape_frame label) (other_frames page) classes).

(** A frame that adds nothing: its content cannot be read, or the
    extraction raises on it. *)
Definition frame_fails (label : string) (frame : option string) : Prop :=
  frame = None
  \/ exists frame_html e,
       frame = Some frame_html
       /\ parse_bw_widget_html frame_html label = Raise e.

(** The records of one frame, none when it fails. *)
Definition frame_records (label : string) (frame : option string)
    : list ClassRecord :=
  match frame with
  | Some frame_html =>
      match parse_bw_widget_html frame_html label with
      | Ok classes => classes
      | Raise _ => []
      end
  | None => []
  end.

End Scraping.

(** ** The run: [main]

    The outcome of a run that ends without a traceback: the text
    written to the output file, if any, and the exit status. The debug
    files and the log are left out. *)
Record Outcome : Type := {
  calendar : option string;
  exit_status : Z
}.

Section Run.
Context {iso : IsoParser} {lib : StrLib}.

(** [discover] is [DISCOVER_MODE]; the two pages are those of
    [SCHEDULE_PAGES], in its order. *)
Definition main (discover : bool) (fitness_page aquatics_page : Page)
    (config : Config) (now : Datetime.datetime) : result Outcome :=
  let scrape := if discover then run_discovery else scrape_page in
  first ← scrape fitness_page "group_fitness";
  second ← scrape aquatics_page "aquatics";
  let all_classes := dedupe (first ++ second) in
  if discover then Ok {| calendar := None; exit_status := 0 |}
  else if negb (nonempty all_classes) then
    ics ← generate_ics [] config now;
    Ok {| calendar := Some ics; exit_status := 1 |}
  else
    let filtered := filter_classes all_classes config in
    ics ← generate_ics filtered config now;
    Ok {| calendar := Some ics; exit_status := 0 |}.

End Run.

(** The number of lines equal to [line]. *)
Definition count (line : string) (lines : list string) : nat :=
  length (List.filter (String.eqb line) lines).

(** ** Sample inputs *)

(** A page with a day marker and three session fragments; the second
    one has no start time element. *)
Definition sample_markup : string := Py.q
  "<body><div class='bw-widget__day'>Mon</div><div class='bw-session' data-bw-widget-mbo-class-name='water_aerobics'><time class='hc_starttime' datetime='2026-02-16T10:00'></time><time class='hc_endtime' datetime='2026-02-16T10:45'></time><div class='bw-session__name'><span class='t'>Class</span> Water <b>Aerobics</b> </div><div class='bw-session__staff'> CATHY STEEN </div></div><div class='bw-session'><div class='bw-session__name'>No time</div></div><div data-x='1' class='bw-session' data-bw-widget-mbo-class-name='spin_class'><time class='hc_starttime' datetime='2026-02-16T06:00'></time></div></body>".

(** A page whose only session ends before it starts. *)
Definition reversed_markup : string := Py.q
  "<body><div class='bw-session' data-bw-widget-mbo-class-name='yoga'><time class='hc_starttime' datetime='2026-02-16T10:45'></time><time class='hc_endtime' datetime='2026-02-16T10:00'></time></div></body>".

(** A page whose only session starts in 1400 and ends in 2026, a
    microsecond before the full minute. *)
Definition far_apart_markup : string := Py.q
  "<body><div class='bw-session' data-bw-widget-mbo-class-name='yoga'><time class='hc_starttime' datetime='1400-02-16T10:00:00'></time><time class='hc_endtime' datetime='2026-02-16T09:59:59.999999'></time></div></body>".

(** A page whose second session has a start time that is not a date. *)
Definition garbled_markup : string := Py.q
  "<body><div class='bw-session' data-bw-widget-mbo-class-name='yoga'><time class='hc_starttime' datetime='2026-02-16T09:00'></time></div><div class='bw-session' data-bw-widget-mbo-class-name='spin'><time class='hc_starttime' datetime='tomorrow'></time></div><div class='bw-session' data-bw-widget-mbo-class-name='swim'><time class='hc_starttime' datetime='2026-02-16T11:00'></time></div></body>".

(** The two records of [sample_markup], page label [aquatics]. *)
Definition water_aerobics : ClassRecord :=
  {| name := Some "Water Aerobics";
     raw_name := Some "water_aerobics";
     start_iso := Some "2026-02-16T10:00";
     end_iso := Some "2026-02-16T10:45";
     date := Some "2026-02-16";
     day := Some "Monday";
     time := Some "10:00 AM";
     start_hour := Some 10;
     instructor := Some "CATHY STEEN";
     source := Some "aquatics";
     end_time := Some "10:45 AM";
     duration_minutes := Some 45 |}.

Definition spin_class : ClassRecord :=
  {| name := Some "Spin Class";
     raw_name := Some "spin_class";
     start_iso := Some "2026-02-16T06:00";
     end_iso := Some EmptyString;
     date := Some "2026-02-16";
     day := Some "Monday";
     time := Some "6:00 AM";
     start_hour := Some 6;
     instructor := Some EmptyString;
     source := Some "aquatics";
     end_time := None;
     duration_minutes := None |}.

Definition sample_records : list ClassRecord := [water_aerobics; spin_class].

(** The matches of the session pattern in [sample_markup]: the one
    before the fragment without a start, that fragment, and the rest. *)
Definition sample_before : list (string * string) :=
  firstn 1 (Re.findall2 Pat.session_pattern sample_markup).

Definition sample_skipped : string * string :=
  nth 1 (Re.findall2 Pat.session_pattern sample_markup)
    (EmptyString, EmptyString).

Definition sample_after : list (string * string) :=
  skipn 2 (Re.findall2 Pat.session_pattern sample_markup).

(** A record with a name and an hour only. *)
Definition named (nm raw : string) (hour : Z) : ClassRecord :=
  {| name := Some nm; raw_name := Some raw;
     start_iso := None; end_iso := None; date := None; day := None;
     time := None; start_hour := Some hour; instructor := None;
     source := None; end_time := None; duration_minutes := None |}.

(** A record whose start timestamp is the empty string, and one whose
    start timestamp is not a date. *)
Definition untimed : ClassRecord :=
  {| name := Some "Yoga"; raw_name := Some "yoga";
     start_iso := Some EmptyString; end_iso := Some EmptyString;
     date := None; day := None; time := None; start_hour := None;
     instructor := Some EmptyString; source := Some "group_fitness";
     end_time := None; duration_minutes := None |}.

Definition mistimed : ClassRecord :=
  {| name := Some "Yoga"; raw_name := Some "yoga";
     start_iso := Some "tomorrow"; end_iso := Some EmptyString;
     date := None; day := None; time := None; start_hour := None;
     instructor := Some EmptyString; source := Some "group_fitness";
     end_time := None; duration_minutes := None |}.

Definition config_with (include exclude : option (list string))
    (earliest latest : option Z) : Config :=
  {| include_classes := include; exclude_classes := exclude;
     earliest_hour := earliest; latest_hour := latest;
     calendar_name := None; default_class_duration_minutes := None |}.

Definition no_config : Config :=
  {| include_classes := None; exclude_classes := None;
     earliest_hour := None; latest_hour := None;
     calendar_name := None; default_class_duration_minutes := None |}.

Definition sample_now : Datetime.datetime :=
  Datetime.mk 2026 2 1 12 0 0 0 None.

(** Yoga only, and none of the gentle ones. *)
Definition yoga_not_gentle : Config :=
  config_with (Some ["Yoga"]) (Some ["gentle"]) None None.

Definition studio_classes : list ClassRecord :=
  [ named "Gentle Yoga" "gentle_yoga" 9;
    named "Spin Class" "spin_class" 9;
    named "Power Yoga" "power_yoga" 9 ].

(** From nine o'clock, before five o'clock. *)
Definition office_hours : Config :=
  config_with None None (Some 9) (Some 17).

Definition day_classes : list ClassRecord :=
  [ named "Yoga" "yoga" 8; named "Yoga" "yoga" 9;
    named "Yoga" "yoga" 16; named "Yoga" "yoga" 17 ].

(** An include list of empty strings only. *)
Definition blank_patterns : Config :=
  config_with (Some [EmptyString; EmptyString]) None None None.

(** The sample records with a record without a start between them. *)
Definition mixed_records : list ClassRecord :=
  [water_aerobics; untimed; spin_class].

(** A page whose only session has a naive start and an end with a UTC
    offset. *)
Definition offset_markup : string := Py.q
  "<body><div class='bw-session' data-bw-widget-mbo-class-name='yoga'><time class='hc_starttime' datetime='2026-02-16T10:00'></time><time class='hc_endtime' datetime='2026-02-16T10:45-08:00'></time></div></body>".

Definition offset_fragment : string * string :=
  nth 0 (Re.findall2 Pat.session_pattern offset_markup)
    (EmptyString, EmptyString).

(** A record that passes the start gate and has no name key, and one
    whose end falls after the last day of the calendar. *)
Definition nameless : ClassRecord :=
  {| name := None; raw_name := Some "yoga";
     start_iso := Some "2026-02-16T09:00"; end_iso := Some EmptyString;
     date := Some "2026-02-16"; day := Some "Monday"; time := Some "9:00 AM";
     start_hour := Some 9; instructor := Some EmptyString;
     source := Some "group_fitness"; end_time := None;
     duration_minutes := None |}.

Definition last_night : ClassRecord :=
  {| name := Some "Yoga"; raw_name := Some "yoga";
     start_iso := Some "9999-12-31T23:30"; end_iso := Some EmptyString;
     date := Some "9999-12-31"; day := Some "Friday"; time := Some "11:30 PM";
     start_hour := Some 23; instructor := Some EmptyString;
     source := Some "group_fitness"; end_time := None;
     duration_minutes := None |}.

(** An exclude list with one entry, a space. *)
Definition blank_exclude : Config :=
  config_with None (Some [" "]) None None.

(** Two pages: the fitness page has an empty main frame and two frames,
    one of them unreadable; the aquatics page has the sample markup in
    its main frame and a frame on which the extraction raises. *)
Definition fitness_page : Page :=
  {| main_content := "<html><body></body></html>";
     other_frames := [None; Some garbled_markup] |}.

Definition aquatics_page : Page :=
  {| main_content := sample_markup;
     other_frames := [Some offset_markup] |}.

Definition offset_page : Page :=
  {| main_content := offset_markup; other_frames := [] |}.

(** The lines of the calendar of the sample records. *)
Definition sample_lines : list string :=
  Eval vm_compute in
    match ics_lines (iso := iso_extended) (lib := ascii_text) sample_records
            no_config sample_now with
    | Ok lines => lines
    | Raise _ => []
    end.

(** * Properties *)

(** ** Results *)

Lemma bind_Ok {A B : Type} (a : A) (f : A -> result B) :
  (Ok a ≫= f) = f a.
Proof. reflexivity. Qed.

Lemma bind_Raise {A B : Type} (e : exn) (f : A -> result B) :
  (Raise e ≫= f) = Raise e.
Proof. reflexivity. Qed.

Lemma bind_Ok_inv {A B : Type} (m : result A) (f : A -> result B) (b : B) :
  (m ≫= f) = Ok b -> exists a, m = Ok a /\ f a = Ok b.
Proof. destruct m as [a|e]; [eauto | discriminate]. Qed.

Lemma Ok_inj {A : Type} (a b : A) : Ok a = Ok b -> a = b.
Proof. now intros [= ->]. Qed.

Lemma Ok_Some_inj {A : Type} (a b : A) : Ok (Some a) = Ok (Some b) -> a = b.
Proof. now intros [= ->]. Qed.

Ltac inv_bind H :=
  let a := fresh "a" in
  let Ha := fresh "Ha" in
  apply bind_Ok_inv in H; destruct H as (a & Ha & H).

(** ** The matcher *)

Section MatcherFacts.
Import Re.

Implicit Types (r : regex) (c : cclass) (cs : captures) (s : string)
  (k : captures -> string -> option (captures * string))
  (m : captures * string).

(** A repetition hands to its continuation a suffix of its input and
    the captures it was given. *)
Lemma matches_Star_inv c cs k m s :
  matches (Star c) cs s k = Some m ->
  exists s', (String.length s' <= String.length s)%nat /\ k cs s' = Some m.
Proof.
  induction s as [|a s IH]; cbn [matches].
  - intros H. exists EmptyString. split; [reflexivity | exact H].
  - change ((if cmatch c a
             then match matches (Star c) cs s k with
                  | Some m' => Some m'
                  | None => k cs (String a s)
                  end
             else k cs (String a s)) = Some m -> 
            exists s', (String.length s' <= String.length (String a s))%nat
                       /\ k cs s' = Some m).
    destruct (cmatch c a).
    + destruct (matches (Star c) cs s k) as [m'|] eqn:E.
      * intros [= ->]. destruct (IH eq_refl) as (s' & Hlen & Hk).
        exists s'. split; [cbn [String.length]; lia | exact Hk].
      * intros H. exists (String a s). split; [reflexivity | exact H].
    + intros H. exists (String a s). split; [reflexivity | exact H].
Qed.

Lemma matches_Plus_inv c cs k m s :
  matches (Plus c) cs s k = Some m ->
  exists s', (String.length s' < String.length s)%nat /\ k cs s' = Some m.
Proof.
  destruct s as [|a s]; cbn [matches]; [discriminate|].
  destruct (cmatch c a); [|discriminate].
  intros H. apply (matches_Star_inv c cs k m s) in H as (s' & Hlen & Hk).
  exists s'. split; [cbn [String.length]; lia | exact Hk].
Qed.

Lemma matches_StarLazy_inv c cs k m s :
  matches (StarLazy c) cs s k = Some m ->
  exists s', k cs s' = Some m.
Proof.
  induction s as [|a s IH]; cbn [matches].
  - destruct (k cs EmptyString) eqn:E; [|discriminate].
    intros [= ->]. eauto.
  - change (match k cs (String a s) with
            | Some m' => Some m'
            | None => if cmatch c a then matches (StarLazy c) cs s k else None
            end = Some m -> exists s', k cs s' = Some m).
    destruct (k cs (String a s)) eqn:E.
    + intros [= ->]. eauto.
    + destruct (cmatch c a); [exact IH | discriminate].
Qed.

(** Whatever the pattern, a match ends in the continuation. *)
Lemma matches_inv r : forall cs s k m,
  matches r cs s k = Some m -> exists cs' s', k cs' s' = Some m.
Proof.
  induction r as [p|c|c|c|r1 IH1 r2 IH2|r1 IH1 r2 IH2|i r IH|r IH];
    intros cs s k m H.
  - cbn [matches] in H. destruct (strip_prefix p s); [eauto | discriminate].
  - apply matches_Star_inv in H as (s' & _ & H). eauto.
  - apply matches_Plus_inv in H as (s' & _ & H). eauto.
  - apply matches_StarLazy_inv in H as (s' & H). eauto.
  - cbn [matches] in H. apply IH1 in H as (cs1 & s1 & H). eapply IH2, H.
  - cbn [matches] in H. destruct (matches r1 cs s k) eqn:E.
    + injection H as ->. eapply IH1, E.
    + eapply IH2, H.
  - cbn [matches] in H. apply IH in H as (cs1 & s1 & H). eauto.
  - cbn [matches] in H.
    destruct (matches r cs s (fun cs' s' => Some (cs', s'))); [eauto | discriminate].
Qed.

Lemma search_inv r s m : search r s = Some m -> exists t, match_here r t = Some m.
Proof.
  induction s as [|a s IH]; cbn [search].
  - destruct (match_here r EmptyString) eqn:E; [|discriminate].
    intros [= ->]. eauto.
  - destruct (match_here r (String a s)) eqn:E; [|exact IH].
    intros [= ->]. eauto.
Qed.

Lemma take_nonempty n s :
  (0 < n)%nat -> (0 < String.length s)%nat -> Py.take n s <> EmptyString.
Proof. destruct n, s; cbn; intros; try lia; discriminate. Qed.

Lemma matches_Seq r1 r2 cs s k :
  matches (Seq r1 r2) cs s k =
  matches r1 cs s (fun cs' s' => matches r2 cs' s' k).
Proof. reflexivity. Qed.

Lemma matches_Group i r cs s k :
  matches (Group i r) cs s k =
  matches r cs s (fun cs' s' => k ((i, consumed s s') :: cs') s').
Proof. reflexivity. Qed.

Lemma matches_Lit p cs s k :
  matches (Lit p) cs s k =
  match strip_prefix p s with Some rest => k cs rest | None => None end.
Proof. reflexivity. Qed.

(** A group [([^c]+)] followed by a literal, at the end of a pattern:
    the group holds at least one character. *)
Lemma group_plus_lit_inv i c p cs s cs_out rest :
  matches (Seq (Group i (Plus c)) (Lit p)) cs s
    (fun cs' s' => Some (cs', s')) = Some (cs_out, rest) ->
  exists g, g <> EmptyString /\ cs_out = (i, g) :: cs.
Proof.
  rewrite matches_Seq, matches_Group. intros H.
  apply matches_Plus_inv in H as (s' & Hlen & H).
  rewrite matches_Lit in H.
  destruct (strip_prefix p s'); [|discriminate].
  injection H as <- <-.
  exists (consumed s s'). split; [|reflexivity].
  unfold consumed. apply take_nonempty; lia.
Qed.

(** An attribute pattern [a[^x]*b([^y]+)e] captures a value that is
    not empty; so does [a([^y]+)e]. *)
Lemma attribute_value_nonempty a c b d e content text :
  search_group1 (cat [Lit a; Star c; Lit b; Group 1 (Plus d); Lit e]) content
  = Some text ->
  text <> EmptyString.
Proof.
  unfold search_group1.
  destruct (search _ content) as [[cs rest]|] eqn:E; [|discriminate].
  apply search_inv in E as (t & E). unfold match_here in E.
  cbn [cat] in E. rewrite matches_Seq, matches_Lit in E.
  destruct (strip_prefix a t) as [t1|]; [|discriminate].
  rewrite matches_Seq in E.
  apply matches_Star_inv in E as (t2 & _ & E).
  rewrite matches_Seq, matches_Lit in E.
  destruct (strip_prefix b t2) as [t3|]; [|discriminate].
  apply group_plus_lit_inv in E as (g & Hg & ->).
  cbn [group Nat.eqb]. now intros [= <-].
Qed.

Lemma short_attribute_value_nonempty a d e content text :
  search_group1 (cat [Lit a; Group 1 (Plus d); Lit e]) content = Some text ->
  text <> EmptyString.
Proof.
  unfold search_group1.
  destruct (search _ content) as [[cs rest]|] eqn:E; [|discriminate].
  apply search_inv in E as (t & E). unfold match_here in E.
  cbn [cat] in E. rewrite matches_Seq, matches_Lit in E.
  destruct (strip_prefix a t) as [t1|]; [|discriminate].
  apply group_plus_lit_inv in E as (g & Hg & ->).
  cbn [group Nat.eqb]. now intros [= <-].
Qed.

Lemma start_pattern_nonempty content start_text :
  search_group1 Pat.start_pattern content = Some start_text ->
  start_text <> EmptyString.
Proof. apply attribute_value_nonempty. Qed.

Lemma end_pattern_nonempty content end_text :
  search_group1 Pat.end_pattern content = Some end_text ->
  end_text <> EmptyString.
Proof. apply attribute_value_nonempty. Qed.

Lemma raw_name_pattern_nonempty opening_tag raw :
  search_group1 Pat.raw_name_pattern opening_tag = Some raw ->
  raw <> EmptyString.
Proof. apply short_attribute_value_nonempty. Qed.

End MatcherFacts.

(** ** Strings *)

Lemma truthy_true s : Py.truthy s = true <-> s <> EmptyString.
Proof. destruct s; cbn; split; congruence. Qed.

Lemma truthy_false s : Py.truthy s = false <-> s = EmptyString.
Proof. destruct s; cbn; split; congruence. Qed.

Lemma replace_char_length a b s :
  String.length (Py.replace_char a b s) = String.length s.
Proof. induction s as [|c s IH]; cbn; [reflexivity | now rewrite IH]. Qed.

Lemma length_zero_empty s : String.length s = 0%nat -> s = EmptyString.
Proof. destruct s; cbn; [reflexivity | discriminate]. Qed.

(** ** The floating-point computation of the duration *)

Lemma binary_round_aux_signed sx mx ex lx :
  Datetime.signed sx (SpecFloat.binary_round_aux 53 1024 sx mx ex lx).
Proof.
  unfold SpecFloat.binary_round_aux.
  destruct (SpecFloat.shr_fexp 53 1024 mx ex lx) as [mrs' e'].
  destruct (SpecFloat.shr_fexp 53 1024 _ e' SpecFloat.loc_Exact)
    as [mrs'' e''].
  destruct (SpecFloat.shr_m mrs'') as [|m|m]; cbn; auto.
  destruct (Z.leb _ _); cbn; auto.
Qed.

(** Dividing by a positive integer keeps the sign. *)
Lemma float_div_signed sign x p :
  Datetime.signed sign x ->
  Datetime.signed sign (Datetime.float_div x (Datetime.float_of_int (Zpos p))).
Proof.
  unfold Datetime.float_div, Datetime.float_of_int, SpecFloat.SFdiv.
  destruct x as [s|s| |s m e]; cbn [Datetime.signed]; auto.
  intros ->.
  destruct (SpecFloat.SFdiv_core_binary 53 1024 (Zpos m) e (Zpos p) 0)
    as [[mz ez] lz].
  rewrite xorb_false_r. apply binary_round_aux_signed.
Qed.

Lemma float_of_int_signed n :
  (n <= 0 -> Datetime.signed true (Datetime.float_of_int n))
  /\ (0 <= n -> Datetime.signed false (Datetime.float_of_int n)).
Proof. destruct n; cbn; split; intros; auto; lia. Qed.

Lemma int_of_float_signed x :
  (Datetime.signed true x -> Datetime.int_of_float x <= 0)
  /\ (Datetime.signed false x -> 0 <= Datetime.int_of_float x).
Proof.
  destruct x as [s|s| |s m e]; cbn [Datetime.signed Datetime.int_of_float];
    try (split; intros; lia).
  assert (Hmag : 0 <= match e with
                      | Zneg k => Z.shiftr (Zpos m) (Zpos k)
                      | _ => Z.shiftl (Zpos m) e
                      end).
  { destruct e; [apply Z.shiftl_nonneg | apply Z.shiftl_nonneg
                 | apply Z.shiftr_nonneg]; lia. }
  split; intros ->; lia.
Qed.

(** The duration has the sign of the difference. *)
Lemma whole_minutes_sign us :
  (us <= 0 -> Datetime.whole_minutes us <= 0)
  /\ (0 <= us -> 0 <= Datetime.whole_minutes us).
Proof.
  unfold Datetime.whole_minutes, Datetime.total_seconds.
  split; intros H.
  - apply int_of_float_signed, (float_div_signed true _ 60).
    apply (float_div_signed true _ 1000000).
    now apply float_of_int_signed.
  - apply int_of_float_signed, (float_div_signed false _ 60).
    apply (float_div_signed false _ 1000000).
    now apply float_of_int_signed.
Qed.

Section ExtractionLemmas.
Context {iso : IsoParser} {lib : StrLib}.

(** The fallback of the display name has the length of the machine
    name, so the display name is empty only when the machine name is. *)
Lemma display_name_of_empty raw content :
  display_name_of raw content = EmptyString -> raw = EmptyString.
Proof.
  unfold display_name_of.
  destruct (Py.truthy _) eqn:E.
  - intros H. rewrite H in E. discriminate.
  - intros H. apply title_empty in H. apply length_zero_empty.
    rewrite <- (replace_char_length "_" " " raw). now rewrite H.
Qed.

(** The loop body, inverted: what was read from a fragment that gave a
    record. *)
Lemma parse_session_inv label opening_tag content cls :
  parse_session label (opening_tag, content) = Ok (Some cls) ->
  exists start_text start_dt,
    Re.search_group1 Pat.start_pattern content = Some start_text
    /\ fromisoformat start_text = Some start_dt
    /\ let raw :=
         get (Re.search_group1 Pat.raw_name_pattern opening_tag) EmptyString in
       let end_text :=
         get (Re.search_group1 Pat.end_pattern content) EmptyString in
       let base :=
         base_record label (display_name_of raw content) raw start_text
           end_text (instructor_of content) start_dt in
       (cls = base /\ (end_text = EmptyString \/ fromisoformat end_text = None))
       \/ exists end_dt minutes,
            end_text <> EmptyString
            /\ fromisoformat end_text = Some end_dt
            /\ Datetime.minutes_between end_dt start_dt = Ok minutes
            /\ cls = with_end base
                       (Py.lstrip_char "0" (Datetime.strftime_clock end_dt))
                       minutes.
Proof.
  unfold parse_session.
  destruct (Re.search_group1 Pat.start_pattern content) as [start_text|];
    [|discriminate].
  destruct (fromisoformat start_text) as [start_dt|] eqn:Hstart; [|discriminate].
  set (raw := get (Re.search_group1 Pat.raw_name_pattern opening_tag) EmptyString).
  set (end_text := get (Re.search_group1 Pat.end_pattern content) EmptyString).
  set (base := base_record _ _ _ _ _ _ _).
  intros H. exists start_text, start_dt.
  split; [reflexivity|]. split; [exact Hstart|]. cbv zeta.
  fold raw end_text base.
  destruct (Py.truthy end_text) eqn:Htruthy.
  - destruct (fromisoformat end_text) as [end_dt|] eqn:Hend.
    + inv_bind H. apply Ok_Some_inj in H.
      right. exists end_dt, a. apply truthy_true in Htruthy. auto.
    + apply Ok_Some_inj in H. left. auto.
  - apply Ok_Some_inj in H. apply truthy_false in Htruthy. left. auto.
Qed.

(** The only exception of the loop body: the subtraction of a naive and
    an aware timestamp. *)
Lemma parse_session_Raise label opening_tag content e :
  parse_session label (opening_tag, content) = Raise e <->
  e = TypeError /\ mixed_offsets content.
Proof.
  unfold parse_session, mixed_offsets.
  destruct (Re.search_group1 Pat.start_pattern content) as [start_text|].
  2:{ split; [discriminate | intros (_ & ? & ? & ? & ? & [=] & _)]. }
  destruct (fromisoformat start_text) as [start_dt|] eqn:Hstart.
  2:{ split; [discriminate|].
      intros (_ & ? & ? & ? & ? & [= <-] & _ & Hs & _). congruence. }
  destruct (Re.search_group1 Pat.end_pattern content) as [end_text|] eqn:Hsearch;
    cbn [get].
  2:{ cbn [Py.truthy]. split; [discriminate|].
      intros (_ & ? & ? & ? & ? & _ & [=] & _). }
  apply end_pattern_nonempty, truthy_true in Hsearch as ->.
  destruct (fromisoformat end_text) as [end_dt|] eqn:Hend.
  2:{ split; [discriminate|].
      intros (_ & ? & ? & ? & ? & _ & [= <-] & _ & He & _). congruence. }
  unfold Datetime.minutes_between, Datetime.sub.
  destruct (Datetime.utcoffset end_dt) as [oe|] eqn:Hoe,
           (Datetime.utcoffset start_dt) as [os|] eqn:Hos;
    rewrite ?bind_Ok, ?bind_Raise; split.
  - discriminate.
  - intros (_ & s' & e' & sd & ed & [= <-] & [= <-] & Hs & He & Hiff).
    assert (sd = start_dt) as -> by congruence.
    assert (ed = end_dt) as -> by congruence.
    rewrite Hos, Hoe in Hiff. exfalso.
    assert (Hne : Some oe <> None) by discriminate.
    apply Hiff in Hne. discriminate.
  - intros [= <-]. split; [reflexivity|].
    exists start_text, end_text, start_dt, end_dt.
    rewrite Hos, Hoe. repeat split; auto; discriminate.
  - intros [-> _]. reflexivity.
  - intros [= <-]. split; [reflexivity|].
    exists start_text, end_text, start_dt, end_dt.
    rewrite Hos, Hoe. repeat split; auto; try discriminate.
    intros H. now contradiction H.
  - intros [-> _]. reflexivity.
  - discriminate.
  - intros (_ & s' & e' & sd & ed & [= <-] & [= <-] & Hs & He & Hiff).
    assert (sd = start_dt) as -> by congruence.
    assert (ed = end_dt) as -> by congruence.
    rewrite Hos, Hoe in Hiff. exfalso. now apply Hiff.
Qed.

(** The loop raises nothing but [TypeError], and it raises it exactly
    when some fragment mixes a naive and an aware timestamp. *)
Lemma parse_sessions_Raise_TypeError label ms e :
  parse_sessions label ms = Raise e -> e = TypeError.
Proof.
  induction ms as [|[tag content] ms IH]; cbn [parse_sessions];
    [discriminate|].
  destruct (parse_session label (tag, content)) as [found|e'] eqn:Hm.
  - rewrite bind_Ok.
    destruct (parse_sessions label ms) as [classes|e''];
      [discriminate|].
    rewrite bind_Raise. intros [= <-]. now apply IH.
  - rewrite bind_Raise. intros [= <-].
    now apply parse_session_Raise in Hm as [-> _].
Qed.

Lemma parse_sessions_Raise label ms :
  parse_sessions label ms = Raise TypeError <->
  exists opening_tag content,
    (opening_tag, content) ∈ ms /\ mixed_offsets content.
Proof.
  induction ms as [|[tag content] ms IH]; cbn [parse_sessions].
  - split; [discriminate | intros (t & c & Hm & _); inversion Hm].
  - destruct (parse_session label (tag, content)) as [found|e'] eqn:Hm.
    + rewrite bind_Ok.
      destruct (parse_sessions label ms) as [classes|e''] eqn:Hms.
      * rewrite bind_Ok. split; [discriminate|].
        intros (t & c & Hin & Hmixed).
        apply elem_of_cons in Hin as [[= -> ->] | Hin].
        -- assert (Hr : parse_session label (tag, content) = Raise TypeError)
             by (apply parse_session_Raise; auto).
           congruence.
        -- assert (Hr : Ok classes = Raise TypeError) by (apply IH; eauto).
           discriminate.
      * rewrite bind_Raise.
        apply parse_sessions_Raise_TypeError in Hms as Hty. subst e''.
        split.
        -- intros _. destruct (proj1 IH eq_refl) as (t & c & Hin & Hmixed).
           exists t, c. split; [now right | exact Hmixed].
        -- reflexivity.
    + rewrite bind_Raise.
      apply parse_session_Raise in Hm as [-> Hmixed]. split.
      * intros _. exists tag, content. split; [left | exact Hmixed].
      * reflexivity.
Qed.

Lemma parse_sessions_length label ms classes :
  parse_sessions label ms = Ok classes ->
  (length classes <= length ms)%nat.
Proof.
  revert classes. induction ms as [|m ms IH]; cbn [parse_sessions];
    intros classes H.
  - apply Ok_inj in H. now subst.
  - inv_bind H. inv_bind H. apply Ok_inj in H. subst classes.
    specialize (IH _ Ha0). rewrite length_app. cbn [length].
    destruct a; cbn; lia.
Qed.

End ExtractionLemmas.

(** ** Session extraction *)

Section ExtractionFacts.
Context {iso : IsoParser} {lib : StrLib}.

Lemma parse_session_lacks_start label opening_tag content :
  lacks_start content -> parse_session label (opening_tag, content) = Ok None.
Proof.
  intros [Hnone | (start_text & Hsome & Hbad)]; unfold parse_session.
  - now rewrite Hnone.
  - now rewrite Hsome, Hbad.
Qed.

(** The loop distributes over a concatenation of matches. *)
Lemma parse_sessions_app label ms1 ms2 :
  parse_sessions label (ms1 ++ ms2) =
  (before ← parse_sessions label ms1;
   after ← parse_sessions label ms2;
   Ok (before ++ after)).
Proof.
  induction ms1 as [|m ms1 IH]; cbn [parse_sessions app].
  - rewrite bind_Ok. destruct (parse_sessions label ms2); reflexivity.
  - destruct (parse_session label m) as [found|e]; [|reflexivity].
    rewrite !bind_Ok, IH.
    destruct (parse_sessions label ms1) as [before|e]; [|reflexivity].
    rewrite !bind_Ok.
    destruct (parse_sessions label ms2) as [after|e]; [|reflexivity].
    rewrite !bind_Ok. now rewrite app_assoc.
Qed.

(** Every record of the result comes from one match. *)
Lemma parse_sessions_elem label ms classes cls :
  parse_sessions label ms = Ok classes -> cls ∈ classes ->
  exists m, m ∈ ms /\ parse_session label m = Ok (Some cls).
Proof.
  revert classes.
  induction ms as [|m ms IH]; cbn [parse_sessions]; intros classes Hok Hin.
  - injection Hok as <-. inversion Hin.
  - inv_bind Hok. inv_bind Hok. injection Hok as <-.
    apply elem_of_app in Hin as [Hin | Hin].
    + destruct a as [c|]; cbn [option_list] in Hin; [|inversion Hin].
      apply list_elem_of_singleton in Hin as ->.
      exists m. split; [left | assumption].
    + destruct (IH _ Ha0 Hin) as (m' & Hm' & Hp).
      exists m'. split; [now right | assumption].
Qed.

Lemma has_start_false content : has_start content = false <-> lacks_start content.
Proof.
  unfold has_start, lacks_start.
  destruct (Re.search_group1 Pat.start_pattern content) as [start_text|].
  - destruct (fromisoformat start_text) as [start_dt|] eqn:Hp.
    + rewrite bool_decide_eq_true_2 by eauto. split; [discriminate|].
      intros [[=] | (t & [= <-] & Hnone)]. congruence.
    + rewrite bool_decide_eq_false_2 by (intros [? [=]]).
      split; [|reflexivity]. intros _. right. eauto.
  - split; [now left | reflexivity].
Qed.

Lemma mixes_spec content : mixes content = true <-> mixed_offsets content.
Proof.
  unfold mixes, mixed_offsets.
  destruct (Re.search_group1 Pat.start_pattern content) as [start_text|].
  2:{ split; [discriminate | intros (? & ? & ? & ? & [=] & _)]. }
  destruct (Re.search_group1 Pat.end_pattern content) as [end_text|].
  2:{ split; [discriminate | intros (? & ? & ? & ? & _ & [=] & _)]. }
  destruct (fromisoformat start_text) as [start_dt|] eqn:Hs.
  2:{ split; [discriminate|].
      intros (? & ? & ? & ? & [= <-] & _ & Hs' & _). congruence. }
  destruct (fromisoformat end_text) as [end_dt|] eqn:He.
  2:{ split; [discriminate|].
      intros (? & ? & ? & ? & _ & [= <-] & _ & He' & _). congruence. }
  assert (Hiff : xorb (bool_decide (is_Some (Datetime.utcoffset start_dt)))
                   (bool_decide (is_Some (Datetime.utcoffset end_dt))) = true
                 <-> (Datetime.utcoffset start_dt = None
                      <-> Datetime.utcoffset end_dt <> None)).
  { destruct (Datetime.utcoffset start_dt) as [os|],
             (Datetime.utcoffset end_dt) as [oe|];
      rewrite ?bool_decide_eq_true_2 by eauto;
      rewrite ?bool_decide_eq_false_2 by (intros [? [=]]);
      cbn [xorb]; split; try discriminate; try reflexivity.
    - intros [_ H]. assert (Hne : Some oe <> None) by discriminate.
      apply H in Hne. discriminate.
    - intros _. split; [discriminate | intros H; now contradiction H].
    - intros _. split; [discriminate | reflexivity].
    - intros [H _]. now contradiction (H eq_refl). }
  rewrite Hiff. split.
  - intros H. exists start_text, end_text, start_dt, end_dt. auto.
  - intros (s' & e' & sd & ed & [= <-] & [= <-] & Hs' & He' & H).
    assert (sd = start_dt) as -> by congruence.
    assert (ed = end_dt) as -> by congruence. exact H.
Qed.

(** A fragment that gives no record has no usable start. *)
Lemma parse_session_None label opening_tag content :
  parse_session label (opening_tag, content) = Ok None -> lacks_start content.
Proof.
  unfold parse_session, lacks_start.
  destruct (Re.search_group1 Pat.start_pattern content) as [start_text|];
    [|now left].
  destruct (fromisoformat start_text) as [start_dt|] eqn:Hstart;
    [|right; eauto].
  set (end_text := get (Re.search_group1 Pat.end_pattern content) EmptyString).
  destruct (Py.truthy end_text); [|discriminate].
  destruct (fromisoformat end_text) as [end_dt|]; [|discriminate].
  destruct (Datetime.minutes_between end_dt start_dt);
    rewrite ?bind_Ok, ?bind_Raise; discriminate.
Qed.

(** A fragment with a usable start whose timestamps can be subtracted
    gives its record. *)
Lemma parse_session_usable label opening_tag content :
  has_start content = true ->
  ~ mixed_offsets content ->
  exists cls,
    parse_session label (opening_tag, content) = Ok (Some cls)
    /\ record_of label (opening_tag, content) cls.
Proof.
  intros Hstart Hmixed.
  destruct (parse_session label (opening_tag, content)) as [[cls|]|e] eqn:H.
  - exists cls. split; [reflexivity|].
    apply parse_session_inv in H as (start_text & start_dt & Hs & Hp & Hcls).
    exists start_text, start_dt. cbn [fst snd].
    destruct Hcls as [[-> _] | (end_dt & minutes & _ & _ & _ & ->)];
      cbn [with_end base_record start_iso raw_name name end_iso date day time
           start_hour instructor source];
      repeat split; auto.
  - apply parse_session_None, has_start_false in H. congruence.
  - apply parse_session_Raise in H as [_ H]. contradiction.
Qed.

(** When no fragment mixes a naive and an aware timestamp, the loop
    returns the records of the fragments with a usable start, in their
    order. *)
Lemma parse_sessions_usable label ms :
  Forall (fun m => ~ mixed_offsets (snd m)) ms ->
  exists classes,
    parse_sessions label ms = Ok classes
    /\ Forall2 (record_of label) (usable ms) classes.
Proof.
  induction 1 as [|[tag content] ms Hm _ (classes & Hok & Hall)];
    cbn [parse_sessions usable List.filter snd].
  - exists []. split; [reflexivity | constructor].
  - fold (usable ms). destruct (has_start content) eqn:Hstart.
    + destruct (parse_session_usable label tag content Hstart Hm)
        as (cls & Hcls & Hrec).
      exists (cls :: classes). rewrite Hcls, bind_Ok, Hok, bind_Ok.
      split; [reflexivity | now constructor].
    + apply has_start_false in Hstart.
      rewrite (parse_session_lacks_start _ _ _ Hstart), bind_Ok, Hok, bind_Ok.
      exists classes. split; [reflexivity | assumption].
Qed.

Lemma not_mixed_Forall (ms : list (string * string)) :
  forallb (fun m => negb (mixes (snd m))) ms = true ->
  Forall (fun m => ~ mixed_offsets (snd m)) ms.
Proof.
  intros H. apply Forall_forall. intros m Hin Hmixed.
  apply mixes_spec in Hmixed.
  apply list_elem_of_In in Hin.
  pose proof (proj1 (forallb_forall _ _) H m Hin) as Hm.
  cbv beta in Hm. rewrite Hmixed in Hm. discriminate.
Qed.

(** C1. A session fragment whose content has no start timestamp
    attribute, or whose start timestamp does not parse as an ISO
    date-time, contributes no record: the loop body skips it, and the
    result of the extraction is made of the records of the fragments
    before it followed by those of the fragments after it. These
    fragments are still extracted: when none of them has timestamps
    that cannot be subtracted, the extraction returns, and what it
    returns is one complete record for each fragment with a usable
    start before the skipped fragment, then one for each such fragment
    after it, in the order of the fragments. *)
Theorem C1_fragment_without_start_is_skipped
    (html label : string) (before_it after_it : list (string * string))
    (opening_tag content : string) :
  session_matches html = before_it ++ (opening_tag, content) :: after_it ->
  lacks_start content ->
  parse_session label (opening_tag, content) = Ok None
  /\ parse_bw_widget_html html label =
     (front ← parse_sessions label before_it;
      back ← parse_sessions label after_it;
      Ok (front ++ back))
  /\ (Forall (fun m => ~ mixed_offsets (snd m)) (before_it ++ after_it) ->
      exists front back,
        parse_sessions label before_it = Ok front
        /\ parse_sessions label after_it = Ok back
        /\ parse_bw_widget_html html label = Ok (front ++ back)
        /\ Forall2 (record_of label) (usable before_it) front
        /\ Forall2 (record_of label) (usable after_it) back).
Proof.
  intros Hsplit Hbad.
  pose proof (parse_session_lacks_start label opening_tag content Hbad) as Hskip.
  assert (Heq : parse_bw_widget_html html label =
                (front ← parse_sessions label before_it;
                 back ← parse_sessions label after_it;
                 Ok (front ++ back))).
  { unfold parse_bw_widget_html. rewrite Hsplit, parse_sessions_app.
    destruct (parse_sessions label before_it) as [front|e]; [|reflexivity].
    cbn [parse_sessions]. rewrite Hskip, !bind_Ok.
    destruct (parse_sessions label after_it); reflexivity. }
  split; [exact Hskip|]. split; [exact Heq|].
  intros Hall. apply Forall_app in Hall as [Hb Ha].
  destruct (parse_sessions_usable label _ Hb) as (front & Hfront & Hf2).
  destruct (parse_sessions_usable label _ Ha) as (back & Hback & Hb2).
  exists front, back. rewrite Heq, Hfront, Hback. auto.
Qed.

(** What a record that was appended looks like: its start parsed, and
    it carries an end time and a duration exactly when its end timestamp
    is not empty and parsed too. *)
Lemma parse_session_Some label opening_tag content cls :
  parse_session label (opening_tag, content) = Ok (Some cls) ->
  exists start_text start_dt base,
    Re.search_group1 Pat.start_pattern content = Some start_text
    /\ fromisoformat start_text = Some start_dt
    /\ start_iso base = Some start_text
    /\ end_iso base =
       Some (get (Re.search_group1 Pat.end_pattern content) EmptyString)
    /\ duration_minutes base = None
    /\ (cls = base
        \/ exists end_text end_dt minutes,
             end_iso base = Some end_text
             /\ fromisoformat end_text = Some end_dt
             /\ Datetime.minutes_between end_dt start_dt = Ok minutes
             /\ cls = with_end base
                        (Py.lstrip_char "0" (Datetime.strftime_clock end_dt))
                        minutes).
Proof.
  unfold parse_session.
  destruct (Re.search_group1 Pat.start_pattern content) as [start_text|];
    [|discriminate].
  destruct (fromisoformat start_text) as [start_dt|] eqn:Hstart; [|discriminate].
  set (end_text := get (Re.search_group1 Pat.end_pattern content) EmptyString).
  set (base := base_record _ _ _ _ _ _ _).
  intros H. exists start_text, start_dt, base.
  do 5 (split; [reflexivity || exact Hstart|]).
  destruct (Py.truthy end_text).
  - destruct (fromisoformat end_text) as [end_dt|] eqn:Hend.
    + inv_bind H. apply Ok_Some_inj in H.
      right. exists end_text, end_dt, a. repeat split; auto.
    + apply Ok_Some_inj in H. now left.
  - apply Ok_Some_inj in H. now left.
Qed.

(** C2 (as amended). The duration of an extracted record is not
    normalised by the extraction: when a record carries a duration, its
    two timestamps parsed and the duration is what
    [int((end - start).total_seconds() / 60)] gives for them; it has
    the sign of the difference, so it is zero or negative whenever the
    end is not after the start. The positive duration is the one the
    serialiser uses: whenever the default duration is positive, so is
    the duration it computes for the record. *)
Theorem C2_duration_is_not_normalised
    (html label : string) (classes : list ClassRecord) (cls : ClassRecord)
    (d : Z) :
  parse_bw_widget_html html label = Ok classes ->
  cls ∈ classes ->
  duration_minutes cls = Some d ->
  duration_explained cls d
  /\ forall config, 0 < default_dur config -> 0 < duration_of config cls.
Proof.
  intros Hok Hin Hd.
  destruct (parse_sessions_elem _ _ _ _ Hok Hin) as ([tag content] & _ & Hm).
  apply parse_session_Some in Hm
    as (start_text & start_dt & base & _ & Hstart & Hs & He & Hnone & Hcls).
  destruct Hcls as [-> | (end_text & end_dt & minutes & Hend & Hparse & Hmin & ->)].
  - congruence.
  - cbn [with_end duration_minutes] in Hd. injection Hd as ->.
    unfold Datetime.minutes_between in Hmin. inv_bind Hmin. injection Hmin as <-.
    split.
    + exists start_text, end_text, start_dt, end_dt, a.
      cbn [with_end start_iso end_iso].
      repeat split; try assumption; apply whole_minutes_sign.
    + intros config Hdef. unfold duration_of, get.
      cbn [with_end duration_minutes].
      destruct (Z.leb_spec (Datetime.whole_minutes a) 0); lia.
Qed.

End ExtractionFacts.

(** ** Deduplication *)

Section DedupeFacts.

Implicit Types (l : list ClassRecord) (cls : ClassRecord).

(** The set [seen] after the loop holds the keys met so far. *)
Lemma dedupe_seen l st :
  fst (fold_left dedupe_step l st) = list_to_set (keys l) ∪ fst st.
Proof.
  revert st. induction l as [|cls l IH]; intros [seen unique]; cbn [fold_left].
  - cbn. set_solver.
  - rewrite IH. unfold dedupe_step, keys. cbn [fmap list_fmap list_to_set].
    case_decide; cbn [fst]; set_solver.
Qed.

(** First wins: a record is kept exactly when no earlier record has
    its key, and the records kept stay in their order. *)
Lemma dedupe_snoc l cls :
  dedupe (l ++ [cls]) =
  if decide (key cls ∈ keys l) then dedupe l else dedupe l ++ [cls].
Proof.
  unfold dedupe. rewrite fold_left_app. cbn [fold_left].
  pose proof (dedupe_seen l (∅, [])) as Hseen.
  destruct (fold_left dedupe_step l (∅, [])) as [seen unique].
  cbn [fst snd] in *. unfold dedupe_step.
  assert (Hiff : key cls ∈ seen <-> key cls ∈ keys l)
    by (rewrite Hseen, elem_of_union, elem_of_list_to_set, elem_of_empty;
        tauto).
  destruct (decide (key cls ∈ seen)) as [H1|H1],
    (decide (key cls ∈ keys l)) as [H2|H2];
    cbn [snd]; try reflexivity; exfalso; tauto.
Qed.

Lemma dedupe_sublist l : dedupe l `sublist_of` l.
Proof.
  induction l as [|cls l IH] using rev_ind; [reflexivity|].
  rewrite dedupe_snoc. case_decide.
  - now apply sublist_inserts_r.
  - now apply sublist_app.
Qed.

Lemma dedupe_keys_NoDup l : NoDup (keys (dedupe l)).
Proof.
  induction l as [|cls l IH] using rev_ind; [constructor|].
  rewrite dedupe_snoc. case_decide as Hin; [assumption|].
  unfold keys in *. rewrite fmap_app. apply NoDup_app. repeat split.
  - assumption.
  - intros k Hk Hk'. apply list_elem_of_singleton in Hk' as ->.
    apply Hin. eapply elem_of_sublist; [exact Hk|].
    apply fmap_sublist, dedupe_sublist.
  - apply NoDup_singleton.
Qed.

(** A list without repeated keys is left as it is. *)
Lemma dedupe_NoDup l : NoDup (keys l) -> dedupe l = l.
Proof.
  induction l as [|cls l IH] using rev_ind; [reflexivity|].
  unfold keys in *. rewrite fmap_app. intros Hnd.
  apply NoDup_app in Hnd as (Hl & Hsep & _).
  rewrite dedupe_snoc, IH by assumption. unfold keys.
  case_decide as Hin; [|reflexivity].
  exfalso. apply (Hsep _ Hin). now left.
Qed.

(** C6. The deduplication is first-wins and order-preserving: the
    empty list gives the empty list, and a record added at the end of
    the input is dropped when an earlier record has its key (start
    timestamp string, display name) and is otherwise added at the end of
    the output; so the output is a subsequence of the input in which no
    key occurs twice. It is idempotent and never longer than its
    input. *)
Theorem C6_dedupe_first_wins_idempotent :
  dedupe [] = []
  /\ (forall l cls,
        dedupe (l ++ [cls]) =
        if decide (key cls ∈ key <$> l) then dedupe l else dedupe l ++ [cls])
  /\ (forall l, dedupe l `sublist_of` l)
  /\ (forall l, NoDup (key <$> dedupe l))
  /\ (forall l, dedupe (dedupe l) = dedupe l)
  /\ (forall l, (length (dedupe l) <= length l)%nat).
Proof.
  split; [reflexivity|].
  split; [exact dedupe_snoc|].
  split; [exact dedupe_sublist|].
  split; [exact dedupe_keys_NoDup|].
  split.
  - intros l. apply dedupe_NoDup, dedupe_keys_NoDup.
  - intros l. apply sublist_length, dedupe_sublist.
Qed.

End DedupeFacts.

(** ** Preference filter *)

Section FilterFacts.
Context {lib : StrLib}.

Implicit Types (classes : list ClassRecord) (cls : ClassRecord)
  (config : Config).

Lemma nonempty_true {A : Type} (l : list A) : nonempty l = true <-> l <> [].
Proof. destruct l; cbn; split; congruence. Qed.

Lemma any_in_false patterns combined :
  any_in patterns combined = false <->
  forall p, p ∈ patterns -> Py.contains p combined = false.
Proof.
  unfold any_in. induction patterns as [|p ps IH]; cbn [existsb].
  - split; [intros _ p Hp; inversion Hp | reflexivity].
  - rewrite orb_false_iff, IH. split.
    + intros [Hp Hps] p' Hin. apply elem_of_cons in Hin as [-> | Hin]; auto.
    + intros H. split; [apply H; left | intros p' Hin; apply H; now right].
Qed.

Lemma any_in_true patterns combined :
  any_in patterns combined = true <->
  exists p, p ∈ patterns /\ Py.contains p combined = true.
Proof.
  unfold any_in. rewrite existsb_exists.
  split; intros (p & Hin & Hp); exists p; split; try assumption;
    now apply list_elem_of_In.
Qed.

Lemma noop_test_spec {A B : Type} (inc exc : list A) (e l : option B) :
  negb (nonempty inc) && negb (nonempty exc)
    && negb (bool_decide (is_Some e)) && negb (bool_decide (is_Some l)) = true
  <-> inc = [] /\ exc = [] /\ e = None /\ l = None.
Proof.
  destruct inc, exc, e, l; cbn [nonempty negb andb];
    rewrite ?bool_decide_eq_true_2 by eauto;
    rewrite ?bool_decide_eq_false_2 by (intros [? ?]; discriminate);
    cbn [negb andb]; intuition discriminate.
Qed.

Lemma filter_classes_noop classes config :
  nothing_configured config -> filter_classes classes config = classes.
Proof.
  intros H. unfold filter_classes.
  apply noop_test_spec in H. now rewrite H.
Qed.

(** Membership in the result. *)
Lemma filter_classes_elem classes config cls :
  cls ∈ filter_classes classes config <->
  cls ∈ classes
  /\ (keeps (include_patterns config) (exclude_patterns config)
        (earliest_hour config) (latest_hour config) cls = true
      \/ nothing_configured config).
Proof.
  unfold filter_classes.
  destruct (negb _ && _ && _ && _) eqn:Htest.
  - apply noop_test_spec in Htest. unfold nothing_configured. tauto.
  - assert (Hnot : ~ nothing_configured config).
    { intros H. apply noop_test_spec in H. congruence. }
    rewrite list_elem_of_In, filter_In, <- list_elem_of_In. tauto.
Qed.

Lemma keeps_split include exclude earliest latest cls :
  keeps include exclude earliest latest cls =
  name_ok include exclude (combined_name cls)
  && match start_hour cls with
     | Some hour => hour_ok earliest latest hour
     | None => true
     end.
Proof.
  unfold keeps, name_ok, hour_ok.
  destruct (nonempty include && negb (any_in include (combined_name cls)));
    [reflexivity|].
  destruct (nonempty exclude && any_in exclude (combined_name cls));
    [reflexivity|].
  destruct (start_hour cls) as [hour|]; [|reflexivity].
  destruct earliest as [e|], latest as [l|]; cbn [negb andb];
    repeat match goal with
           | |- context [if ?b then _ else _] => destruct b
           end; reflexivity.
Qed.

Lemma nonempty_false {A : Type} (l : list A) : nonempty l = false <-> l = [].
Proof. destruct l; cbn; split; congruence. Qed.

Lemma name_ok_spec include exclude combined :
  name_ok include exclude combined = true <->
  (include = []
   \/ exists p, p ∈ include /\ Py.contains p combined = true)
  /\ forall p, p ∈ exclude -> Py.contains p combined = false.
Proof.
  unfold name_ok.
  rewrite andb_true_iff, !negb_true_iff, !andb_false_iff, negb_false_iff.
  rewrite !nonempty_false, any_in_true, any_in_false.
  split; intros [Hinc Hexc]; (split; [exact Hinc|]).
  - destruct Hexc as [-> | Hexc]; [|exact Hexc]. intros p Hp. inversion Hp.
  - now right.
Qed.

Lemma hour_ok_spec earliest latest hour :
  hour_ok earliest latest hour = true <->
  (forall e, earliest = Some e -> e <= hour)
  /\ (forall l, latest = Some l -> hour < l).
Proof.
  unfold hour_ok. rewrite andb_true_iff, !negb_true_iff.
  destruct earliest as [e|], latest as [l|];
    rewrite ?Z.ltb_ge, ?Z.leb_gt; split.
  all: try (intros [H1 H2]; split; intros ? [= <-]; assumption).
  all: try (intros [H1 H2]; split; auto).
  all: try (intros [H1 H2]; split; [intros ? [= <-]; assumption | discriminate]).
  all: try (intros [H1 H2]; split; [discriminate | intros ? [= <-]; assumption]).
  all: try (intros _; split; discriminate).
  all: try (intros _; split; reflexivity).
Qed.

Lemma keeps_spec config cls :
  keeps (include_patterns config) (exclude_patterns config)
    (earliest_hour config) (latest_hour config) cls = true <->
  passes_name_checks config cls
  /\ forall hour, start_hour cls = Some hour ->
       (forall e, earliest_hour config = Some e -> e <= hour)
       /\ (forall l, latest_hour config = Some l -> hour < l).
Proof.
  rewrite keeps_split, andb_true_iff, name_ok_spec.
  unfold passes_name_checks, combined_name.
  destruct (start_hour cls) as [hour|].
  - rewrite hour_ok_spec. split.
    + intros [Hn Hh]. split; [exact Hn|]. now intros h [= <-].
    + intros [Hn Hh]. split; [exact Hn|]. now apply Hh.
  - split.
    + intros [Hn _]. split; [exact Hn|]. discriminate.
    + intros [Hn _]. split; [exact Hn|]. reflexivity.
Qed.

(** C3. A record is rejected when include patterns are configured and
    none of them occurs in the lowercased display name, a space and the
    lowercased raw name; and it is rejected when an exclude pattern
    occurs in that same text, whatever the include patterns are and
    whether or not one of them occurs: exclusion takes precedence. *)
Theorem C3_include_then_exclude classes config cls :
  let combined :=
    lower (get (name cls) EmptyString) +:+ " "
    +:+ lower (get (raw_name cls) EmptyString) in
  (include_patterns config <> [] ->
   (forall p, p ∈ include_patterns config -> Py.contains p combined = false) ->
   cls ∉ filter_classes classes config)
  /\ ((exists p, p ∈ exclude_patterns config /\ Py.contains p combined = true) ->
      cls ∉ filter_classes classes config).
Proof.
  intros combined. split.
  - intros Hne Hnone Hin.
    apply filter_classes_elem in Hin as [_ [Hk | (Hnil & _)]];
      [|contradiction].
    apply keeps_spec in Hk as [[[Hnil | (p & Hp & Hc)] _] _]; [contradiction|].
    fold combined in Hc. rewrite (Hnone p Hp) in Hc. discriminate.
  - intros (p & Hp & Hc) Hin.
    apply filter_classes_elem in Hin as [_ [Hk | (_ & Hnil & _)]].
    + apply keeps_spec in Hk as [[_ Hno] _].
      fold combined in Hno. rewrite (Hno p Hp) in Hc. discriminate.
    + rewrite Hnil in Hp. inversion Hp.
Qed.

(** C4. The hour bounds are half-open. A record that passes the name
    checks and starts at [hour] is kept exactly when it is in the input,
    [hour] is not below the earliest hour (the bound itself is kept) and
    [hour] is strictly below the latest hour (the bound itself is
    rejected). *)
Theorem C4_hour_bounds_half_open classes config cls (hour : Z) :
  start_hour cls = Some hour ->
  passes_name_checks config cls ->
  (cls ∈ filter_classes classes config <->
   cls ∈ classes
   /\ (forall e, earliest_hour config = Some e -> e <= hour)
   /\ (forall l, latest_hour config = Some l -> hour < l)).
Proof.
  intros Hhour Hname. rewrite filter_classes_elem, keeps_spec. split.
  - intros [Hin [[_ Hh] | (_ & _ & He & Hl)]]; (split; [exact Hin|]).
    + now apply Hh.
    + rewrite He, Hl. split; discriminate.
  - intros (Hin & He & Hl). split; [exact Hin|]. left.
    split; [exact Hname|]. intros h Hh.
    rewrite Hhour in Hh. injection Hh as <-. now split.
Qed.

(** C5. With no include patterns, no exclude patterns and neither hour
    bound, the filter returns the list it was given. *)
Theorem C5_unconfigured_filter_is_identity classes config :
  get (include_classes config) [] = [] ->
  get (exclude_classes config) [] = [] ->
  earliest_hour config = None ->
  latest_hour config = None ->
  filter_classes classes config = classes.
Proof.
  intros Hi Hx He Hl. apply filter_classes_noop.
  unfold nothing_configured, include_patterns, exclude_patterns.
  now rewrite Hi, Hx.
Qed.

Lemma normalise_app l1 l2 : normalise (l1 ++ l2) = normalise l1 ++ normalise l2.
Proof. unfold normalise. now rewrite List.filter_app, List.map_app. Qed.

Lemma normalise_empties l : Forall (fun c => c = EmptyString) l -> normalise l = [].
Proof. induction 1 as [|c l -> _ IH]; [reflexivity | exact IH]. Qed.

(** C10. Empty strings among the patterns are discarded before any
    matching: removing one from a list of patterns does not change the
    patterns used, and a configuration whose include list holds only
    empty strings, with no exclude patterns and no hour bounds, makes
    the filter return the list it was given. *)
Theorem C10_empty_patterns_are_discarded :
  (forall l1 l2, normalise (l1 ++ EmptyString :: l2) = normalise (l1 ++ l2))
  /\ forall classes config,
       Forall (fun c => c = EmptyString) (get (include_classes config) []) ->
       exclude_patterns config = [] ->
       earliest_hour config = None ->
       latest_hour config = None ->
       filter_classes classes config = classes.
Proof.
  split.
  - intros l1 l2. now rewrite !normalise_app.
  - intros classes config Hi Hx He Hl. apply filter_classes_noop.
    unfold nothing_configured, include_patterns.
    now rewrite (normalise_empties _ Hi).
Qed.

End FilterFacts.

(** ** Calendar serialisation *)

Lemma count_app line l1 l2 : count line (l1 ++ l2) = (count line l1 + count line l2)%nat.
Proof. unfold count. now rewrite List.filter_app, length_app. Qed.

Section SerialisationFacts.
Context {iso : IsoParser} {lib : StrLib}.

Implicit Types (classes : list ClassRecord) (cls : ClassRecord)
  (config : Config).

Lemma start_of_None cls : start_of cls = None <-> bad_start cls.
Proof.
  unfold start_of, bad_start, get.
  destruct (start_iso cls) as [[|c s]|]; cbn [Py.truthy].
  - split; [now auto|reflexivity].
  - split.
    + intros H. right. right. now exists (String c s).
    + intros [H | [H | (s' & [= <-] & H)]]; [discriminate .. | exact H].
  - split; [now auto|reflexivity].
Qed.

Lemma vevent_skip config now_utc cls :
  start_of cls = None -> vevent config now_utc cls = Ok [].
Proof. unfold vevent. now intros ->. Qed.

Lemma vevent_entry config now_utc cls block :
  is_Some (start_of cls) ->
  vevent config now_utc cls = Ok block <-> entry_of config now_utc cls block.
Proof.
  intros [start Hstart]. unfold vevent, entry_of. rewrite Hstart. split.
  - intros H. inv_bind H. inv_bind H. apply Ok_inj in H.
    destruct (name cls) as [nm|]; [|discriminate]. apply Ok_inj in Ha0.
    subst a0 block. now exists start, a, nm.
  - intros (start' & finish & nm & [= <-] & Hadd & Hname & ->).
    now rewrite Hadd, Hname.
Qed.

Lemma vevents_app config now_utc classes1 classes2 :
  vevents config now_utc (classes1 ++ classes2) =
  (front ← vevents config now_utc classes1;
   back ← vevents config now_utc classes2;
   Ok (front ++ back)).
Proof.
  induction classes1 as [|cls classes1 IH]; cbn [vevents app].
  - rewrite bind_Ok. destruct (vevents config now_utc classes2); reflexivity.
  - destruct (vevent config now_utc cls) as [block|e]; [|reflexivity].
    rewrite !bind_Ok, IH.
    destruct (vevents config now_utc classes1) as [front|e]; [|reflexivity].
    rewrite !bind_Ok.
    destruct (vevents config now_utc classes2) as [back|e]; [|reflexivity].
    rewrite !bind_Ok. now rewrite app_assoc.
Qed.

(** The loop returns exactly when every record that passes the gate has
    an entry, and then it returns these entries in the order of the
    records. *)
Lemma vevents_spec config now_utc classes lines :
  vevents config now_utc classes = Ok lines <->
  exists blocks,
    Forall2 (entry_of config now_utc) (gated classes) blocks
    /\ lines = concat blocks.
Proof.
  revert lines.
  induction classes as [|cls classes IH]; intros lines;
    cbn [vevents gated List.filter].
  - split.
    + intros [= <-]. exists []. split; [constructor | reflexivity].
    + intros (blocks & Hall & ->). inversion Hall. reflexivity.
  - fold (gated classes). destruct (start_of cls) as [start|] eqn:Hstart.
    + rewrite bool_decide_eq_true_2 by eauto. split.
      * intros H. inv_bind H. inv_bind H. apply Ok_inj in H. subst lines.
        apply IH in Ha0 as (blocks & Hall & ->).
        exists (a :: blocks). split; [|reflexivity].
        constructor; [|exact Hall]. apply vevent_entry; [|exact Ha].
        rewrite Hstart. eauto.
      * intros (blocks & Hall & ->).
        inversion Hall as [|? block ? blocks' Hentry Hrest]; subst.
        apply vevent_entry in Hentry; [|rewrite Hstart; eauto].
        rewrite Hentry, bind_Ok.
        assert (Hok : vevents config now_utc classes = Ok (concat blocks'))
          by (apply IH; eauto).
        now rewrite Hok.
    + rewrite bool_decide_eq_false_2 by (intros [? ?]; discriminate).
      rewrite (vevent_skip _ _ _ Hstart), bind_Ok. rewrite <- IH. split.
      * intros H. inv_bind H. now apply Ok_inj in H; subst.
      * intros ->. reflexivity.
Qed.

(** The same for the whole list of lines. *)
Lemma ics_lines_spec classes config now lines :
  ics_lines classes config now = Ok lines <->
  exists blocks,
    Forall2 (entry_of config (Datetime.strftime_stamp now +:+ "Z"))
      (gated classes) blocks
    /\ lines =
       header (get (calendar_name config) default_cal_name)
       ++ concat blocks ++ ["END:VCALENDAR"].
Proof.
  unfold ics_lines. split.
  - intros H. inv_bind H. apply Ok_inj in H. subst lines.
    apply vevents_spec in Ha as (blocks & Hall & ->). now exists blocks.
  - intros (blocks & Hall & ->).
    assert (Hok : vevents config (Datetime.strftime_stamp now +:+ "Z") classes
                  = Ok (concat blocks)) by (apply vevents_spec; eauto).
    now rewrite Hok.
Qed.

(** The duration used for the end time, case by case. *)
Lemma duration_of_cases config cls :
  (forall d, duration_minutes cls = Some d -> 0 < d -> duration_of config cls = d)
  /\ (duration_minutes cls = None
      \/ (exists d, duration_minutes cls = Some d /\ d <= 0) ->
      duration_of config cls =
      match default_class_duration_minutes config with
      | Some m => m
      | None => 45
      end).
Proof.
  unfold duration_of, default_dur, get. split.
  - intros d -> Hd. destruct (Z.leb_spec d 0); [lia | reflexivity].
  - intros [-> | (d & -> & Hd)].
    + destruct (default_class_duration_minutes config) as [m|];
        [destruct (Z.leb_spec m 0) | ]; reflexivity.
    + destruct (Z.leb_spec d 0); [reflexivity | lia].
Qed.

(** C7. In the serialised document every entry is the entry of a record
    that passed the gate, in order, and its end line is the start plus
    a number of minutes: the duration of the record when it is present
    and positive, and the configured default duration (45 when none is
    configured) when the record has no duration or one that is zero or
    negative. *)
Theorem C7_end_is_start_plus_duration classes config now lines :
  ics_lines classes config now = Ok lines ->
  exists blocks,
    lines =
    header (get (calendar_name config) default_cal_name)
    ++ concat blocks ++ ["END:VCALENDAR"]
    /\ Forall2 (shows_times config) (gated classes) blocks.
Proof.
  intros H. apply ics_lines_spec in H as (blocks & Hall & ->).
  exists blocks. split; [reflexivity|].
  eapply Forall2_impl; [exact Hall|].
  intros cls block (start & finish & nm & Hstart & Hadd & _ & ->).
  destruct (duration_of_cases config cls) as [Hpos Hdef].
  exists start, finish, (duration_of config cls).
  repeat split; try assumption; symmetry; auto.
Qed.

Lemma entry_counts now_utc nm cls start_text start finish :
  let block := entry now_utc nm cls start_text start finish in
  count "BEGIN:VEVENT" block = 1%nat /\ count "END:VEVENT" block = 1%nat
  /\ count "BEGIN:VCALENDAR" block = 0%nat
  /\ count "END:VCALENDAR" block = 0%nat.
Proof. repeat split; reflexivity. Qed.

Lemma header_counts cal_name :
  count "BEGIN:VEVENT" (header cal_name) = 0%nat
  /\ count "END:VEVENT" (header cal_name) = 0%nat
  /\ count "BEGIN:VCALENDAR" (header cal_name) = 1%nat
  /\ count "END:VCALENDAR" (header cal_name) = 0%nat.
Proof. repeat split; reflexivity. Qed.

Lemma blocks_counts config now_utc records blocks :
  Forall2 (entry_of config now_utc) records blocks ->
  count "BEGIN:VEVENT" (concat blocks) = length records
  /\ count "END:VEVENT" (concat blocks) = length records
  /\ count "BEGIN:VCALENDAR" (concat blocks) = 0%nat
  /\ count "END:VCALENDAR" (concat blocks) = 0%nat.
Proof.
  induction 1 as [|cls block records blocks Hentry _ IH];
    [repeat split; reflexivity|].
  destruct Hentry as (start & finish & nm & _ & _ & _ & ->).
  destruct (entry_counts now_utc nm cls (get (start_iso cls) EmptyString)
              start finish) as (E1 & E2 & E3 & E4).
  destruct IH as (I1 & I2 & I3 & I4).
  cbn [concat length]. rewrite !count_app, E1, E2, E3, E4, I1, I2, I3, I4.
  repeat split; reflexivity.
Qed.

(** C8 (as amended). When the serialiser returns, its lines are the
    header with the time zone block, then exactly one entry block for
    each record that passes its start-timestamp gate, in the order of
    the input, then the footer: the markers of the calendar occur once
    each, first and last, and the markers of an entry occur once per
    such record. It returns whenever each record that passes the gate
    has an entry (a name, and an end within the range of dates), and on
    the empty input the document is the header, the time zone block and
    the footer. *)
Theorem C8_one_entry_per_gated_record :
  (forall classes config now lines,
     ics_lines classes config now = Ok lines ->
     generate_ics classes config now = Ok (Py.join CRLF lines)
     /\ exists blocks,
          Forall2 (entry_of config (Datetime.strftime_stamp now +:+ "Z"))
            (gated classes) blocks
          /\ lines =
             header (get (calendar_name config) default_cal_name)
             ++ concat blocks ++ ["END:VCALENDAR"]
          /\ count "BEGIN:VEVENT" lines = length (gated classes)
          /\ count "END:VEVENT" lines = length (gated classes)
          /\ count "BEGIN:VCALENDAR" lines = 1%nat
          /\ count "END:VCALENDAR" lines = 1%nat
          /\ head lines = Some "BEGIN:VCALENDAR"
          /\ last lines = Some "END:VCALENDAR")
  /\ (forall classes config now,
        Forall (fun cls =>
                  exists block,
                    entry_of config (Datetime.strftime_stamp now +:+ "Z")
                      cls block)
          (gated classes) ->
        exists lines, ics_lines classes config now = Ok lines)
  /\ (forall config now,
        ics_lines [] config now =
        Ok (header (get (calendar_name config) default_cal_name)
            ++ ["END:VCALENDAR"])).
Proof.
  split; [|split].
  - intros classes config now lines H. split.
    + unfold generate_ics. now rewrite H.
    + apply ics_lines_spec in H as (blocks & Hall & ->).
      exists blocks. split; [exact Hall|]. split; [reflexivity|].
      destruct (blocks_counts _ _ _ _ Hall) as (B1 & B2 & B3 & B4).
      destruct (header_counts (get (calendar_name config) default_cal_name))
        as (H1 & H2 & H3 & H4).
      rewrite !count_app, B1, B2, B3, B4, H1, H2, H3, H4.
      repeat split; try reflexivity; try (cbn; lia).
      rewrite app_assoc. apply last_snoc.
  - intros classes config now Hall.
    assert (Hblocks : exists blocks,
               Forall2 (entry_of config (Datetime.strftime_stamp now +:+ "Z"))
                 (gated classes) blocks).
    { induction Hall as [|cls records [block Hentry] _ [blocks IH]].
      - exists []. constructor.
      - exists (block :: blocks). now constructor. }
    destruct Hblocks as [blocks Hblocks].
    eexists. apply ics_lines_spec. exists blocks. split; [exact Hblocks|reflexivity].
  - reflexivity.
Qed.

Lemma gated_skip before_it after_it cls :
  start_of cls = None ->
  gated (before_it ++ cls :: after_it) = gated (before_it ++ after_it).
Proof.
  intros Hnone. unfold gated. rewrite !List.filter_app. cbn [List.filter].
  rewrite Hnone.
  now rewrite bool_decide_eq_false_2 by (intros [? [=]]).
Qed.

(** C9 (as amended). The serialiser is not total, but a record whose
    start timestamp is missing, empty or does not parse is never the
    cause: the record adds no line and raises nothing, and the result
    for a sequence that contains it is the result for the sequence
    without it. The remaining records receive their entry blocks
    whenever each of those that pass the gate has one (a name, and an
    end within the range of dates): the serialiser then returns the
    header, these blocks in the order of the records, and the footer.
    A sequence made of records with a bad start only gives the document
    without entries. *)
Theorem C9_bad_start_is_skipped_silently :
  (forall config now before_it after_it cls,
     bad_start cls ->
     (forall now_utc, vevent config now_utc cls = Ok [])
     /\ ics_lines (before_it ++ cls :: after_it) config now =
        ics_lines (before_it ++ after_it) config now
     /\ generate_ics (before_it ++ cls :: after_it) config now =
        generate_ics (before_it ++ after_it) config now
     /\ gated (before_it ++ cls :: after_it) = gated (before_it ++ after_it)
     /\ forall blocks,
          Forall2 (entry_of config (Datetime.strftime_stamp now +:+ "Z"))
            (gated (before_it ++ after_it)) blocks ->
          generate_ics (before_it ++ cls :: after_it) config now =
          Ok (Py.join CRLF
                (header (get (calendar_name config) default_cal_name)
                 ++ concat blocks ++ ["END:VCALENDAR"])))
  /\ (forall config now classes,
        Forall bad_start classes ->
        generate_ics classes config now =
        Ok (Py.join CRLF
              (header (get (calendar_name config) default_cal_name)
               ++ ["END:VCALENDAR"]))).
Proof.
  assert (Hskip : forall config now before_it after_it cls,
             bad_start cls ->
             ics_lines (before_it ++ cls :: after_it) config now =
             ics_lines (before_it ++ after_it) config now).
  { intros config now before_it after_it cls Hbad.
    apply start_of_None in Hbad. unfold ics_lines.
    rewrite !vevents_app. cbn [vevents].
    rewrite (vevent_skip _ _ _ Hbad), bind_Ok.
    destruct (vevents _ _ before_it) as [front|e]; [|reflexivity].
    rewrite !bind_Ok.
    destruct (vevents _ _ after_it) as [back|e]; reflexivity. }
  split.
  - intros config now before_it after_it cls Hbad.
    split; [|split; [|split; [|split]]].
    + intros now_utc. now apply vevent_skip, start_of_None.
    + now apply Hskip.
    + unfold generate_ics. now rewrite Hskip.
    + now apply gated_skip, start_of_None.
    + intros blocks Hblocks. unfold generate_ics. rewrite Hskip by exact Hbad.
      assert (Hok : ics_lines (before_it ++ after_it) config now
                    = Ok (header (get (calendar_name config) default_cal_name)
                          ++ concat blocks ++ ["END:VCALENDAR"]))
        by (apply ics_lines_spec; eauto).
      now rewrite Hok.
  - intros config now classes Hall. unfold generate_ics.
    induction Hall as [|cls classes Hbad _ IH]; [reflexivity|].
    pose proof (Hskip config now [] classes cls Hbad) as E.
    cbn [app] in E. now rewrite E.
Qed.

End SerialisationFacts.

(** * The properties at the sample inputs *)

Section Samples.
#[local] Existing Instance ascii_text.

(** ** The library models, checked on known values *)

Example md5_of_empty : MD5.hexdigest EmptyString = "d41d8cd98f00b204e9800998ecf8427e".
Proof. vm_compute. reflexivity. Qed.

Example md5_of_abc : MD5.hexdigest "abc" = "900150983cd24fb0d6963f7d28e17f72".
Proof. vm_compute. reflexivity. Qed.

Example add_over_leap_day :
  Datetime.add_minutes (Datetime.mk 2024 2 28 23 30 0 0 None) 45
  = Ok (Datetime.mk 2024 2 29 0 15 0 0 None).
Proof. vm_compute. reflexivity. Qed.

Example add_past_the_last_day :
  Datetime.add_minutes (Datetime.mk 9999 12 31 23 30 0 0 None) 45
  = Raise OverflowError.
Proof. vm_compute. reflexivity. Qed.

(** The duration is computed in floating point: 45 minutes are 45, a
    second less than a minute is 0, and over six centuries the two
    roundings give a minute more than the exact quotient. *)
Example whole_minutes_values :
  Datetime.whole_minutes 2700000000 = 45
  /\ Datetime.whole_minutes (-2700000000) = -45
  /\ Datetime.whole_minutes 59000000 = 0
  /\ Datetime.whole_minutes 19754668799999999 = 329244480
  /\ Z.quot 19754668799999999 Datetime.US_PER_MINUTE = 329244479.
Proof. repeat split; vm_compute; reflexivity. Qed.

Example title_of_machine_name :
  Py.ascii_title (Py.replace_char "_" " " "water_aerobics") = "Water Aerobics".
Proof. vm_compute. reflexivity. Qed.

Example remove_tags :
  Re.remove_all Pat.tag_pattern "a<b>c</b><>d<e" = "ac<>d<e".
Proof. vm_compute. reflexivity. Qed.

(** ** Extraction *)

Example sample_extraction :
  parse_bw_widget_html (iso := iso_extended) sample_markup "aquatics"
  = Ok sample_records.
Proof. vm_compute. reflexivity. Qed.

Example garbled_extraction :
  exists first third,
    parse_bw_widget_html (iso := iso_extended) garbled_markup "group_fitness"
    = Ok [first; third]
    /\ start_iso first = Some "2026-02-16T09:00"
    /\ start_iso third = Some "2026-02-16T11:00".
Proof. do 2 eexists. split; [vm_compute; reflexivity|]. split; reflexivity. Qed.

Lemma C1_fragment_without_start_is_skipped_witness :
  session_matches sample_markup
  = sample_before ++ (fst sample_skipped, snd sample_skipped) :: sample_after
  /\ lacks_start (iso := iso_extended) (snd sample_skipped)
  /\ Forall (fun m => ~ mixed_offsets (iso := iso_extended) (snd m))
       (sample_before ++ sample_after)
  /\ parse_session (iso := iso_extended) "aquatics"
       (fst sample_skipped, snd sample_skipped) = Ok None
  /\ exists front back,
       parse_sessions (iso := iso_extended) "aquatics" sample_before = Ok front
       /\ parse_sessions (iso := iso_extended) "aquatics" sample_after = Ok back
       /\ parse_bw_widget_html (iso := iso_extended) sample_markup "aquatics"
          = Ok (front ++ back)
       /\ Forall2 (record_of (iso := iso_extended) "aquatics")
            (usable (iso := iso_extended) sample_before) front
       /\ Forall2 (record_of (iso := iso_extended) "aquatics")
            (usable (iso := iso_extended) sample_after) back.
Proof.
  assert (H1 : session_matches sample_markup
               = sample_before
                 ++ (fst sample_skipped, snd sample_skipped) :: sample_after)
    by (vm_compute; reflexivity).
  assert (H2 : lacks_start (iso := iso_extended) (snd sample_skipped))
    by (left; vm_compute; reflexivity).
  assert (H3 : Forall (fun m => ~ mixed_offsets (iso := iso_extended) (snd m))
                 (sample_before ++ sample_after))
    by (apply not_mixed_Forall; vm_compute; reflexivity).
  destruct (C1_fragment_without_start_is_skipped (iso := iso_extended)
              sample_markup "aquatics" sample_before sample_after
              (fst sample_skipped) (snd sample_skipped) H1 H2)
    as (Hskip & _ & Hrest).
  exact (conj H1 (conj H2 (conj H3 (conj Hskip (Hrest H3))))).
Defined.

Example sample_usable_fragments :
  length (usable (iso := iso_extended) sample_before) = 1%nat
  /\ length (usable (iso := iso_extended) sample_after) = 1%nat
  /\ usable (iso := iso_extended) [sample_skipped] = [].
Proof. repeat split; vm_compute; reflexivity. Qed.

Example far_apart_extraction :
  exists cls,
    parse_bw_widget_html (iso := iso_extended) far_apart_markup "aquatics"
    = Ok [cls]
    /\ duration_minutes cls = Some 329244480.
Proof. eexists. split; [vm_compute; reflexivity | reflexivity]. Qed.

(** The claim C2 as it is stated fails: a session whose end is before
    its start is extracted with a negative duration. *)
Lemma C2_reversed_session_has_negative_duration :
  exists cls,
    parse_bw_widget_html (iso := iso_extended) reversed_markup "group_fitness"
    = Ok [cls]
    /\ duration_minutes cls = Some (-45)
    /\ ~ 0 < -45.
Proof.
  eexists. split; [vm_compute; reflexivity|]. split; [reflexivity | lia].
Qed.

Lemma C2_duration_is_not_normalised_witness :
  parse_bw_widget_html (iso := iso_extended) sample_markup "aquatics"
  = Ok sample_records
  /\ water_aerobics ∈ sample_records
  /\ duration_minutes water_aerobics = Some 45
  /\ duration_explained (iso := iso_extended) water_aerobics 45
  /\ forall config, 0 < default_dur config -> 0 < duration_of config water_aerobics.
Proof.
  assert (H1 : parse_bw_widget_html (iso := iso_extended) sample_markup
                 "aquatics" = Ok sample_records)
    by (vm_compute; reflexivity).
  assert (H2 : water_aerobics ∈ sample_records) by (left).
  assert (H3 : duration_minutes water_aerobics = Some 45) by reflexivity.
  exact (conj H1 (conj H2 (conj H3
           (C2_duration_is_not_normalised (iso := iso_extended)
              sample_markup "aquatics" sample_records water_aerobics 45
              H1 H2 H3)))).
Defined.

(** ** Filtering *)

Lemma C3_include_then_exclude_witness :
  (named "Spin Class" "spin_class" 9
   ∉ filter_classes studio_classes yoga_not_gentle)
  /\ (named "Gentle Yoga" "gentle_yoga" 9
      ∉ filter_classes studio_classes yoga_not_gentle).
Proof.
  split.
  - apply (proj1 (C3_include_then_exclude studio_classes yoga_not_gentle
                    (named "Spin Class" "spin_class" 9))).
    + vm_compute. discriminate.
    + intros p Hp. vm_compute in Hp.
      inversion Hp as [|? ? ? Hnil]; [vm_compute; reflexivity | inversion Hnil].
  - apply (proj2 (C3_include_then_exclude studio_classes yoga_not_gentle
                    (named "Gentle Yoga" "gentle_yoga" 9))).
    exists "gentle". split; [left | vm_compute; reflexivity].
Defined.

Example studio_selection :
  filter_classes studio_classes yoga_not_gentle
  = [named "Power Yoga" "power_yoga" 9].
Proof. vm_compute. reflexivity. Qed.

Lemma C4_hour_bounds_half_open_witness :
  start_hour (named "Yoga" "yoga" 9) = Some 9
  /\ passes_name_checks office_hours (named "Yoga" "yoga" 9)
  /\ (named "Yoga" "yoga" 9 ∈ filter_classes day_classes office_hours <->
      named "Yoga" "yoga" 9 ∈ day_classes
      /\ (forall e, earliest_hour office_hours = Some e -> e <= 9)
      /\ (forall l, latest_hour office_hours = Some l -> 9 < l)).
Proof.
  assert (H1 : start_hour (named "Yoga" "yoga" 9) = Some 9) by reflexivity.
  assert (H2 : passes_name_checks office_hours (named "Yoga" "yoga" 9))
    by (split; [left; reflexivity | intros p Hp; inversion Hp]).
  exact (conj H1 (conj H2
           (C4_hour_bounds_half_open day_classes office_hours
              (named "Yoga" "yoga" 9) 9 H1 H2))).
Defined.

Example day_selection :
  filter_classes day_classes office_hours
  = [named "Yoga" "yoga" 9; named "Yoga" "yoga" 16].
Proof. vm_compute. reflexivity. Qed.

Lemma C5_unconfigured_filter_is_identity_witness :
  filter_classes sample_records no_config = sample_records.
Proof.
  apply (C5_unconfigured_filter_is_identity sample_records no_config);
    reflexivity.
Defined.

Lemma C10_empty_patterns_are_discarded_witness :
  normalise (["yoga"] ++ EmptyString :: ["swim"]) = normalise (["yoga"] ++ ["swim"])
  /\ filter_classes studio_classes blank_patterns = studio_classes.
Proof.
  split.
  - apply (proj1 C10_empty_patterns_are_discarded).
  - apply (proj2 C10_empty_patterns_are_discarded studio_classes blank_patterns).
    + repeat constructor.
    + reflexivity.
    + reflexivity.
    + reflexivity.
Defined.

(** ** Serialisation *)

Example sample_calendar :
  generate_ics (iso := iso_extended) sample_records no_config sample_now
  = Ok (Py.join CRLF sample_lines)
  /\ length sample_lines = 47%nat
  /\ sample_lines !! 27%nat
     = Some "DTSTART;TZID=America/Los_Angeles:20260216T100000"
  /\ sample_lines !! 28%nat
     = Some "DTEND;TZID=America/Los_Angeles:20260216T104500"
  /\ sample_lines !! 38%nat
     = Some "DTSTART;TZID=America/Los_Angeles:20260216T060000"
  /\ sample_lines !! 39%nat
     = Some "DTEND;TZID=America/Los_Angeles:20260216T064500".
Proof. repeat split; vm_compute; reflexivity. Qed.

Lemma C7_end_is_start_plus_duration_witness :
  ics_lines (iso := iso_extended) sample_records no_config sample_now
  = Ok sample_lines
  /\ exists blocks,
       sample_lines =
       header (get (calendar_name no_config) default_cal_name)
       ++ concat blocks ++ ["END:VCALENDAR"]
       /\ Forall2 (shows_times (iso := iso_extended) no_config)
            (gated (iso := iso_extended) sample_records) blocks.
Proof.
  assert (H1 : ics_lines (iso := iso_extended) sample_records no_config
                 sample_now = Ok sample_lines)
    by (vm_compute; reflexivity).
  exact (conj H1
           (C7_end_is_start_plus_duration (iso := iso_extended)
              sample_records no_config sample_now sample_lines H1)).
Defined.

(** The claim C8 as it is stated fails: a record without a start
    timestamp is an input record and gets no entry block. *)
Lemma C8_record_without_start_has_no_entry :
  exists lines,
    ics_lines (iso := iso_extended) [untimed] no_config sample_now = Ok lines
    /\ count "BEGIN:VEVENT" lines = 0%nat
    /\ count "BEGIN:VEVENT" lines <> length [untimed].
Proof.
  eexists. split; [vm_compute; reflexivity|].
  split; [vm_compute; reflexivity | vm_compute; discriminate].
Qed.

Lemma C8_one_entry_per_gated_record_witness :
  ics_lines (iso := iso_extended) mixed_records no_config sample_now
  = Ok sample_lines
  /\ count "BEGIN:VEVENT" sample_lines
     = length (gated (iso := iso_extended) mixed_records)
  /\ Forall (fun cls =>
               exists block,
                 entry_of (iso := iso_extended) no_config
                   (Datetime.strftime_stamp sample_now +:+ "Z") cls block)
       (gated (iso := iso_extended) mixed_records)
  /\ exists lines,
       ics_lines (iso := iso_extended) mixed_records no_config sample_now
       = Ok lines.
Proof.
  assert (H1 : ics_lines (iso := iso_extended) mixed_records no_config
                 sample_now = Ok sample_lines)
    by (vm_compute; reflexivity).
  assert (H2 : Forall (fun cls =>
                 exists block,
                   entry_of (iso := iso_extended) no_config
                     (Datetime.strftime_stamp sample_now +:+ "Z") cls block)
                 (gated (iso := iso_extended) mixed_records)).
  { change (gated (iso := iso_extended) mixed_records) with sample_records.
    constructor; [|constructor; [|constructor]];
      (eexists; do 3 eexists; split; [vm_compute; reflexivity|];
       split; [vm_compute; reflexivity|]; split; reflexivity). }
  destruct (proj1 (C8_one_entry_per_gated_record (iso := iso_extended))
              mixed_records no_config sample_now sample_lines H1)
    as (_ & blocks & _ & _ & Hcount & _).
  exact (conj H1 (conj Hcount (conj H2
           (proj1 (proj2 (C8_one_entry_per_gated_record (iso := iso_extended)))
              mixed_records no_config sample_now H2)))).
Defined.

(** The claim C9 as it is stated fails: the serialiser is not total.
    With a record without a start in the input, a record whose end
    falls after the last day of the calendar, or one without a name,
    still makes it raise, and no record receives an entry block. *)
Lemma C9_serialiser_is_not_total :
  bad_start (iso := iso_extended) untimed
  /\ generate_ics (iso := iso_extended) [untimed; last_night] no_config
       sample_now = Raise OverflowError
  /\ generate_ics (iso := iso_extended) [untimed; nameless] no_config
       sample_now = Raise KeyError.
Proof.
  split; [right; left; reflexivity|].
  split; vm_compute; reflexivity.
Qed.

Lemma C9_bad_start_is_skipped_silently_witness :
  bad_start (iso := iso_extended) mistimed
  /\ generate_ics (iso := iso_extended)
       ([water_aerobics] ++ mistimed :: [spin_class]) no_config sample_now
     = generate_ics (iso := iso_extended)
         ([water_aerobics] ++ [spin_class]) no_config sample_now
  /\ (exists blocks,
        Forall2 (entry_of (iso := iso_extended) no_config
                   (Datetime.strftime_stamp sample_now +:+ "Z"))
          (gated (iso := iso_extended) ([water_aerobics] ++ [spin_class]))
          blocks
        /\ generate_ics (iso := iso_extended)
             ([water_aerobics] ++ mistimed :: [spin_class]) no_config
             sample_now
           = Ok (Py.join CRLF
                   (header (get (calendar_name no_config) default_cal_name)
                    ++ concat blocks ++ ["END:VCALENDAR"])))
  /\ Forall (bad_start (iso := iso_extended)) [untimed; mistimed]
  /\ generate_ics (iso := iso_extended) [untimed; mistimed] no_config sample_now
     = Ok (Py.join CRLF
             (header (get (calendar_name no_config) default_cal_name)
              ++ ["END:VCALENDAR"])).
Proof.
  assert (H1 : bad_start (iso := iso_extended) mistimed)
    by (right; right; exists "tomorrow";
        split; [reflexivity | vm_compute; reflexivity]).
  assert (H2 : Forall (bad_start (iso := iso_extended)) [untimed; mistimed])
    by (constructor;
        [right; left; reflexivity | constructor; [exact H1 | constructor]]).
  assert (H3 : exists blocks,
             Forall2 (entry_of (iso := iso_extended) no_config
                        (Datetime.strftime_stamp sample_now +:+ "Z"))
               (gated (iso := iso_extended)
                  ([water_aerobics] ++ [spin_class])) blocks).
  { change (gated (iso := iso_extended) ([water_aerobics] ++ [spin_class]))
      with sample_records.
    eexists. constructor; [|constructor; [|constructor]];
      (do 3 eexists; split; [vm_compute; reflexivity|];
       split; [vm_compute; reflexivity|]; split; reflexivity). }
  destruct H3 as [blocks H3].
  destruct (proj1 (C9_bad_start_is_skipped_silently (iso := iso_extended))
              no_config sample_now [water_aerobics] [spin_class] mistimed H1)
    as (_ & _ & Hsame & _ & Hblocks).
  exact (conj H1
           (conj Hsame
              (conj (ex_intro _ blocks (conj H3 (Hblocks blocks H3)))
                 (conj H2
                    (proj2 (C9_bad_start_is_skipped_silently
                              (iso := iso_extended))
                       no_config sample_now [untimed; mistimed] H2))))).
Defined.

End Samples.

(** * Further properties of the pipeline *)

(** ** Session extraction, further *)

Section ExtractionMore.
Context {iso : IsoParser} {lib : StrLib}.

(** X1. Every record that the extraction returns is complete: its
    start timestamp is present, not empty and parses; its date, day
    name, clock time and start hour are those of the parsed start; its
    source is the page label; and the name, machine name, end timestamp
    and instructor keys are present. *)
Theorem X1_extracted_record_is_complete html label classes cls :
  parse_bw_widget_html html label = Ok classes ->
  cls ∈ classes ->
  exists start_text start_dt,
    start_iso cls = Some start_text
    /\ start_text <> EmptyString
    /\ fromisoformat start_text = Some start_dt
    /\ date cls = Some (Datetime.strftime_date start_dt)
    /\ day cls = Some (Datetime.fmt_A start_dt)
    /\ time cls = Some (Py.lstrip_char "0" (Datetime.strftime_clock start_dt))
    /\ start_hour cls = Some (Datetime.hour start_dt)
    /\ source cls = Some label
    /\ is_Some (name cls) /\ is_Some (raw_name cls)
    /\ is_Some (end_iso cls) /\ is_Some (instructor cls).
Proof.
  intros Hok Hin.
  destruct (parse_sessions_elem _ _ _ _ Hok Hin) as ([tag content] & _ & Hm).
  apply parse_session_inv in Hm as (start_text & start_dt & Hsearch & Hstart & Hcls).
  exists start_text, start_dt.
  apply start_pattern_nonempty in Hsearch.
  destruct Hcls as [[-> _] | (end_dt & minutes & _ & _ & _ & ->)];
    cbn [with_end base_record start_iso date day time start_hour source
         name raw_name end_iso instructor];
    repeat split; eauto.
Qed.

(** X2. In an extracted record the end time and the duration are
    present together or absent together, and they are present exactly
    when the end timestamp of the record is not empty and parses; the
    end time is then the clock reading of that timestamp. *)
Theorem X2_end_time_and_duration_go_together html label classes cls :
  parse_bw_widget_html html label = Ok classes ->
  cls ∈ classes ->
  (is_Some (end_time cls) <-> is_Some (duration_minutes cls))
  /\ (is_Some (duration_minutes cls) <->
      exists end_text end_dt,
        end_iso cls = Some end_text
        /\ end_text <> EmptyString
        /\ fromisoformat end_text = Some end_dt
        /\ end_time cls
           = Some (Py.lstrip_char "0" (Datetime.strftime_clock end_dt))).
Proof.
  intros Hok Hin.
  destruct (parse_sessions_elem _ _ _ _ Hok Hin) as ([tag content] & _ & Hm).
  apply parse_session_inv in Hm as (start_text & start_dt & _ & _ & Hcls).
  cbv zeta in Hcls.
  set (end_text := get (Re.search_group1 Pat.end_pattern content) EmptyString)
    in Hcls.
  destruct Hcls as [[-> Hnone] | (end_dt & minutes & Hne & Hend & _ & ->)];
    cbn [with_end base_record end_time duration_minutes end_iso].
  - split; [split; intros [? [=]]|]. split; [intros [? [=]]|].
    intros (e & d & [= <-] & Hne & Hparse & _).
    destruct Hnone; congruence.
  - split; [split; eauto|]. split; [|eauto].
    intros _. exists end_text, end_dt. auto.
Qed.

(** X3. The extraction raises nothing but [TypeError], and it raises it
    exactly when the content of some session fragment has a start and
    an end timestamp that both parse, one of them with a UTC offset and
    the other without: their subtraction is not caught. *)
Theorem X3_extraction_raises_on_mixed_offsets html label :
  (forall e, parse_bw_widget_html html label = Raise e -> e = TypeError)
  /\ (parse_bw_widget_html html label = Raise TypeError <->
      exists opening_tag content,
        (opening_tag, content) ∈ session_matches html
        /\ mixed_offsets content).
Proof.
  split.
  - intros e. apply parse_sessions_Raise_TypeError.
  - apply parse_sessions_Raise.
Qed.

(** X4. The extraction returns at most one record per session fragment
    of the markup. *)
Theorem X4_at_most_one_record_per_fragment html label classes :
  parse_bw_widget_html html label = Ok classes ->
  (length classes <= length (session_matches html))%nat.
Proof. apply parse_sessions_length. Qed.

(** X5. The machine name of an extracted record is empty when the
    opening tag has no class-name attribute and is never empty
    otherwise, and the display name is empty only when the machine name
    is: a fragment with a class-name attribute always gets a name. *)
Theorem X5_named_whenever_machine_name html label classes cls :
  parse_bw_widget_html html label = Ok classes ->
  cls ∈ classes ->
  exists opening_tag content,
    (opening_tag, content) ∈ session_matches html
    /\ raw_name cls
       = Some (get (Re.search_group1 Pat.raw_name_pattern opening_tag)
                 EmptyString)
    /\ (is_Some (Re.search_group1 Pat.raw_name_pattern opening_tag) ->
        raw_name cls <> Some EmptyString)
    /\ (name cls = Some EmptyString -> raw_name cls = Some EmptyString).
Proof.
  intros Hok Hin.
  destruct (parse_sessions_elem _ _ _ _ Hok Hin) as ([tag content] & Hm_in & Hm).
  apply parse_session_inv in Hm as (start_text & start_dt & _ & _ & Hcls).
  exists tag, content. split; [exact Hm_in|].
  assert (Hfields :
    raw_name cls
    = Some (get (Re.search_group1 Pat.raw_name_pattern tag) EmptyString)
    /\ name cls
       = Some (display_name_of
                 (get (Re.search_group1 Pat.raw_name_pattern tag) EmptyString)
                 content)).
  { destruct Hcls as [[-> _] | (end_dt & minutes & _ & _ & _ & ->)];
      split; reflexivity. }
  destruct Hfields as [Hraw Hname]. rewrite Hraw, Hname.
  split; [reflexivity|]. split.
  - intros [raw Hsome]. rewrite Hsome. cbn [get].
    apply raw_name_pattern_nonempty in Hsome. congruence.
  - intros [= Hempty]. apply display_name_of_empty in Hempty.
    now rewrite Hempty.
Qed.

End ExtractionMore.

(** ** Preference filter, further *)

Lemma List_filter_sublist {A : Type} (f : A -> bool) (l : list A) :
  List.filter f l `sublist_of` l.
Proof.
  induction l as [|a l IH]; cbn [List.filter]; [constructor|].
  destruct (f a); now constructor.
Qed.

Lemma List_filter_idemp {A : Type} (f : A -> bool) (l : list A) :
  List.filter f (List.filter f l) = List.filter f l.
Proof.
  induction l as [|a l IH]; cbn [List.filter]; [reflexivity|].
  destruct (f a) eqn:E; [|exact IH].
  cbn [List.filter]. now rewrite E, IH.
Qed.

Lemma List_filter_none {A : Type} (f : A -> bool) (l : list A) :
  (forall a, f a = false) -> List.filter f l = [].
Proof.
  intros H. induction l as [|a l IH]; cbn [List.filter]; [reflexivity|].
  now rewrite H.
Qed.

Lemma contains_empty s : Py.contains EmptyString s = true.
Proof. destruct s; reflexivity. Qed.

Lemma normalise_elem {lib : StrLib} p patterns :
  p ∈ patterns -> p <> EmptyString ->
  strip (lower p) ∈ normalise patterns.
Proof.
  intros Hin Hne. unfold normalise.
  apply list_elem_of_In.
  apply (in_map (fun c => strip (lower c)) _ p), filter_In.
  split; [now apply list_elem_of_In | now apply truthy_true].
Qed.

Section FilterMore.
Context {lib : StrLib}.

Implicit Types (classes : list ClassRecord) (cls : ClassRecord)
  (config : Config).

(** X6. The filter only removes records: its result is a subsequence
    of its input, in the same order, and is never longer. *)
Theorem X6_filter_returns_a_subsequence classes config :
  filter_classes classes config `sublist_of` classes
  /\ (length (filter_classes classes config) <= length classes)%nat.
Proof.
  assert (H : filter_classes classes config `sublist_of` classes).
  { unfold filter_classes. destruct (negb _ && _ && _ && _); [reflexivity|].
    apply List_filter_sublist. }
  split; [exact H | now apply sublist_length].
Qed.

(** X7. Filtering twice with the same configuration is filtering
    once. *)
Theorem X7_filter_is_idempotent classes config :
  filter_classes (filter_classes classes config) config
  = filter_classes classes config.
Proof.
  unfold filter_classes. destruct (negb _ && _ && _ && _); [reflexivity|].
  apply List_filter_idemp.
Qed.

(** X8. Each record is judged on its own: the filter of a concatenation
    is the concatenation of the filters. *)
Theorem X8_filter_distributes_over_append classes1 classes2 config :
  filter_classes (classes1 ++ classes2) config
  = filter_classes classes1 config ++ filter_classes classes2 config.
Proof.
  unfold filter_classes. destruct (negb _ && _ && _ && _); [reflexivity|].
  apply List.filter_app.
Qed.

(** X9. The hour bounds apply only to records that have a start hour:
    a record without one that passes the name checks is kept whatever
    the bounds are. *)
Theorem X9_record_without_hour_skips_bounds classes config cls :
  start_hour cls = None ->
  passes_name_checks config cls ->
  (cls ∈ filter_classes classes config <-> cls ∈ classes).
Proof.
  intros Hhour Hname. rewrite filter_classes_elem, keeps_spec. split.
  - now intros [Hin _].
  - intros Hin. split; [exact Hin|]. left. split; [exact Hname|].
    intros hour Hh. congruence.
Qed.

(** X10. An exclude pattern made of white space only is not discarded:
    it is not empty when the empty entries are dropped, it is stripped
    to the empty string afterwards, and the empty string occurs in every
    name. Such a pattern makes the filter reject every record. *)
Theorem X10_blank_exclude_pattern_rejects_all classes config p :
  p ∈ get (exclude_classes config) [] ->
  p <> EmptyString ->
  strip (lower p) = EmptyString ->
  filter_classes classes config = [].
Proof.
  intros Hin Hne Hblank.
  pose proof (normalise_elem p _ Hin Hne) as Hp. rewrite Hblank in Hp.
  fold (exclude_patterns config) in Hp.
  unfold filter_classes.
  destruct (exclude_patterns config) as [|x xs] eqn:Hx; [inversion Hp|].
  cbn [nonempty negb andb]. rewrite andb_false_r. cbn [andb].
  apply List_filter_none. intros cls. unfold keeps.
  destruct (nonempty (include_patterns config) && _); [reflexivity|].
  assert (Hany : any_in (x :: xs) (combined_name cls) = true).
  { apply any_in_true. exists EmptyString.
    split; [exact Hp | apply contains_empty]. }
  now rewrite Hany.
Qed.

End FilterMore.

(** ** Deduplication, further *)

Section DedupeMore.

Implicit Types (l : list ClassRecord) (cls : ClassRecord).

Lemma dedupe_keys l k : k ∈ keys (dedupe l) <-> k ∈ keys l.
Proof.
  induction l as [|cls l IH] using rev_ind; [reflexivity|].
  rewrite dedupe_snoc. unfold keys in *.
  case_decide as Hin; rewrite !fmap_app, ?elem_of_app, IH.
  - cbn [fmap list_fmap]. rewrite list_elem_of_singleton.
    split; [tauto|]. intros [H | ->]; [exact H | exact Hin].
  - reflexivity.
Qed.

(** X11. The deduplication loses no key and adds none: a (start
    timestamp, name) pair occurs in the output exactly when it occurs in
    the input. *)
Theorem X11_dedupe_keeps_every_key l k :
  k ∈ key <$> dedupe l <-> k ∈ key <$> l.
Proof. apply dedupe_keys. Qed.

(** X12. A record is in the output of the deduplication exactly when
    it occurs in the input at a position before which no record has its
    key. *)
Theorem X12_dedupe_keeps_first_occurrences l cls :
  cls ∈ dedupe l <->
  exists l1 l2, l = l1 ++ cls :: l2 /\ key cls ∉ key <$> l1.
Proof.
  induction l as [|x l IH] using rev_ind.
  - split; [intros H; inversion H|].
    intros (l1 & l2 & H & _). now destruct l1.
  - rewrite dedupe_snoc. split.
    + intros Hin.
      assert (Hcases : cls ∈ dedupe l \/ (cls = x /\ key x ∉ keys l)).
      { case_decide as Hk; [now left|].
        apply elem_of_app in Hin as [Hin | Hin]; [now left|].
        apply list_elem_of_singleton in Hin as ->. now right. }
      destruct Hcases as [Hd | [-> Hk]].
      * apply IH in Hd as (l1 & l2 & -> & Hfirst).
        exists l1, (l2 ++ [x]). split; [|exact Hfirst].
        now rewrite <- app_assoc.
      * exists l, []. split; [reflexivity | exact Hk].
    + intros (l1 & l2 & Heq & Hfirst).
      destruct l2 as [|y l2 _] using rev_ind.
      * apply app_inj_tail in Heq as [-> ->].
        case_decide as Hk; [contradiction|].
        apply elem_of_app. right. now left.
      * change (l ++ [x] = l1 ++ (cls :: l2) ++ [y]) in Heq.
        rewrite app_assoc in Heq. apply app_inj_tail in Heq as [-> ->].
        assert (Hd : cls ∈ dedupe (l1 ++ cls :: l2)) by (apply IH; eauto).
        case_decide; [exact Hd | apply elem_of_app; now left].
Qed.

(** X13. A list in which no key occurs twice is returned as it is. *)
Theorem X13_dedupe_of_distinct_keys_is_identity l :
  NoDup (key <$> l) -> dedupe l = l.
Proof. apply dedupe_NoDup. Qed.

End DedupeMore.

(** ** Calendar serialisation, further *)

Lemma le_bytes_length w x : length (MD5.le_bytes w x) = w.
Proof.
  revert x. induction w as [|w IH]; intros x; cbn [MD5.le_bytes length];
    [reflexivity | now rewrite IH].
Qed.

Lemma le_bytes_range w x :
  Forall (fun b => 0 <= b < 256) (MD5.le_bytes w x).
Proof.
  revert x. induction w as [|w IH]; intros x; cbn [MD5.le_bytes];
    constructor; [|apply IH].
  change 255 with (Z.ones 8). rewrite Z.land_ones by lia.
  apply Z.mod_pos_bound. reflexivity.
Qed.

Lemma digest_length msg : length (MD5.digest msg) = 16%nat.
Proof.
  unfold MD5.digest.
  destruct (fold_left MD5.compress _ _) as [[[a b] c] d].
  now rewrite !length_app, !le_bytes_length.
Qed.

Lemma digest_range msg : Forall (fun b => 0 <= b < 256) (MD5.digest msg).
Proof.
  unfold MD5.digest.
  destruct (fold_left MD5.compress _ _) as [[[a b] c] d].
  repeat (apply Forall_app; split); apply le_bytes_range.
Qed.

Lemma hex_digit_ok n : 0 <= n < 16 -> is_hex_digit (MD5.hex_digit n) = true.
Proof.
  intros Hn. replace n with (Z.of_nat (Z.to_nat n)) by lia.
  assert (Hm : (Z.to_nat n < 16)%nat) by lia.
  set (m := Z.to_nat n) in *. clearbody m. clear Hn.
  do 16 (destruct m as [|m]; [reflexivity|]). lia.
Qed.

Lemma hex_length bs : String.length (MD5.hex bs) = (2 * length bs)%nat.
Proof.
  induction bs as [|b bs IH]; cbn [MD5.hex String.length length];
    [reflexivity | lia].
Qed.

Lemma hex_all bs :
  Forall (fun b => 0 <= b < 256) bs ->
  all_chars is_hex_digit (MD5.hex bs) = true.
Proof.
  induction 1 as [|b bs Hb _ IH]; cbn [MD5.hex all_chars]; [reflexivity|].
  rewrite IH, !andb_true_r. apply andb_true_iff. split; apply hex_digit_ok.
  - rewrite Z.shiftr_div_pow2 by lia. change (2 ^ 4) with 16.
    split; [apply Z.div_pos; lia | apply Z.div_lt_upper_bound; lia].
  - change 15 with (Z.ones 4). rewrite Z.land_ones by lia.
    apply Z.mod_pos_bound. reflexivity.
Qed.

Lemma take_length n s :
  (n <= String.length s)%nat -> String.length (Py.take n s) = n.
Proof.
  revert s. induction n as [|n IH]; intros [|c s]; cbn; intros H;
    try reflexivity; try lia.
  rewrite IH; [reflexivity | lia].
Qed.

Lemma take_all_chars f n s :
  all_chars f s = true -> all_chars f (Py.take n s) = true.
Proof.
  revert s. induction n as [|n IH]; intros [|c s]; cbn; try reflexivity.
  intros H. apply andb_true_iff in H as [Hc Hs]. now rewrite Hc, IH.
Qed.

Section SerialisationMore.
Context {iso : IsoParser} {lib : StrLib}.

Implicit Types (classes : list ClassRecord) (cls : ClassRecord)
  (config : Config).

Lemma ics_lines_Ok_vevents classes config now lines :
  ics_lines classes config now = Ok lines ->
  exists blocks,
    vevents config (Datetime.strftime_stamp now +:+ "Z") classes = Ok blocks.
Proof.
  unfold ics_lines.
  destruct (vevents _ _ classes) as [blocks|e]; [eauto | discriminate].
Qed.

(** The first record that raises decides the result. *)
Lemma generate_ics_Raise_at config now before_it after_it cls e lines :
  ics_lines before_it config now = Ok lines ->
  vevent config (Datetime.strftime_stamp now +:+ "Z") cls = Raise e ->
  generate_ics (before_it ++ cls :: after_it) config now = Raise e.
Proof.
  intros Hbefore Hcls.
  apply ics_lines_Ok_vevents in Hbefore as [blocks Hblocks].
  unfold generate_ics, ics_lines.
  rewrite vevents_app, Hblocks, bind_Ok. cbn [vevents].
  now rewrite Hcls.
Qed.

(** X14. A record that passes the start gate and whose end is in range
    but that has no name key makes the serialiser raise [KeyError]; the
    records after it are not looked at and no document is returned. *)
Theorem X14_missing_name_raises_KeyError
    config now before_it after_it cls start finish lines :
  ics_lines before_it config now = Ok lines ->
  start_of cls = Some start ->
  Datetime.add_minutes start (duration_of config cls) = Ok finish ->
  name cls = None ->
  generate_ics (before_it ++ cls :: after_it) config now = Raise KeyError.
Proof.
  intros Hbefore Hstart Hadd Hname.
  apply (generate_ics_Raise_at _ _ _ _ _ _ _ Hbefore).
  unfold vevent. now rewrite Hstart, Hadd, Hname.
Qed.

(** X15. A record that passes the start gate and whose start plus
    duration falls outside the dates the library can represent makes the
    serialiser raise [OverflowError], whether or not the record has a
    name: the end is computed before the name is read. *)
Theorem X15_end_out_of_range_raises_OverflowError
    config now before_it after_it cls start lines :
  ics_lines before_it config now = Ok lines ->
  start_of cls = Some start ->
  Datetime.add_minutes start (duration_of config cls) = Raise OverflowError ->
  generate_ics (before_it ++ cls :: after_it) config now
  = Raise OverflowError.
Proof.
  intros Hbefore Hstart Hadd.
  apply (generate_ics_Raise_at _ _ _ _ _ _ _ Hbefore).
  unfold vevent. now rewrite Hstart, Hadd.
Qed.

Lemma blocks_length config now_utc records blocks :
  Forall2 (entry_of config now_utc) records blocks ->
  length (concat blocks) = (11 * length records)%nat.
Proof.
  induction 1 as [|cls block records blocks Hentry _ IH]; [reflexivity|].
  destruct Hentry as (start & finish & nm & _ & _ & _ & ->).
  cbn [concat]. rewrite length_app, IH. cbn [entry length]. lia.
Qed.

(** X16. The document has 25 lines for the header, the time zone block
    and the footer, and 11 lines for each record that passes the start
    gate. *)
Theorem X16_number_of_lines classes config now lines :
  ics_lines classes config now = Ok lines ->
  length lines = (25 + 11 * length (gated classes))%nat.
Proof.
  intros H. apply ics_lines_spec in H as (blocks & Hall & ->).
  rewrite !length_app, (blocks_length _ _ _ _ Hall).
  cbn [header length]. lia.
Qed.

(** X17. The second line of every entry is its identifier: [UID:], then
    16 lower-case hexadecimal digits, then [@tice-creek-sync]. *)
Theorem X17_uid_is_sixteen_hex_digits now_utc nm cls start_text start finish :
  exists uid,
    entry now_utc nm cls start_text start finish !! 1%nat
    = Some ("UID:" +:+ uid +:+ "@tice-creek-sync")
    /\ String.length uid = 16%nat
    /\ all_chars is_hex_digit uid = true.
Proof.
  exists (uid_of nm cls start_text). split; [reflexivity|].
  unfold uid_of, MD5.hexdigest. split.
  - apply take_length. rewrite hex_length, digest_length. lia.
  - apply take_all_chars, hex_all, digest_range.
Qed.

Lemma start_of_Some cls start_text start_dt :
  start_iso cls = Some start_text -> start_text <> EmptyString ->
  fromisoformat start_text = Some start_dt ->
  start_of cls = Some start_dt.
Proof.
  intros Hs Hne Hp. unfold start_of. rewrite Hs. cbn [get].
  apply truthy_true in Hne. now rewrite Hne.
Qed.

Lemma gated_ready classes : Forall ready classes -> gated classes = classes.
Proof.
  induction 1 as [|cls classes [Hstart _] _ IH]; [reflexivity|].
  unfold gated in *. cbn [List.filter].
  rewrite bool_decide_eq_true_2 by exact Hstart. now rewrite IH.
Qed.

Lemma vevent_ready_Raise config now_utc cls e :
  ready cls -> vevent config now_utc cls = Raise e -> e = OverflowError.
Proof.
  intros [[start Hstart] [nm Hname]]. unfold vevent. rewrite Hstart, Hname.
  unfold Datetime.add_minutes.
  destruct (_ && _); [|now intros [= <-]].
  destruct (Datetime.ord2ymd _) as [[y mo] d]. discriminate.
Qed.

Lemma vevents_ready_Raise config now_utc classes e :
  Forall ready classes ->
  vevents config now_utc classes = Raise e -> e = OverflowError.
Proof.
  induction 1 as [|cls classes Hready _ IH]; cbn [vevents]; [discriminate|].
  destruct (vevent config now_utc cls) as [block|e'] eqn:Hcls.
  - rewrite bind_Ok.
    destruct (vevents config now_utc classes) as [blocks|e''];
      [discriminate|].
    rewrite bind_Raise. intros [= <-]. now apply IH.
  - rewrite bind_Raise. intros [= <-].
    now apply vevent_ready_Raise in Hcls.
Qed.

Lemma ics_lines_count classes config now lines :
  ics_lines classes config now = Ok lines ->
  count "BEGIN:VEVENT" lines = length (gated classes).
Proof.
  intros H. apply ics_lines_spec in H as (blocks & Hall & ->).
  destruct (blocks_counts _ _ _ _ Hall) as (B1 & _).
  destruct (header_counts (get (calendar_name config) default_cal_name))
    as (H1 & _).
  rewrite !count_app, B1, H1. cbn. lia.
Qed.

(** What the serialiser does with records that are all ready. *)
Lemma ready_serialisation classes :
  Forall ready classes ->
  gated classes = classes
  /\ (forall config now e,
        generate_ics classes config now = Raise e -> e = OverflowError)
  /\ (forall config now lines,
        ics_lines classes config now = Ok lines ->
        count "BEGIN:VEVENT" lines = length classes).
Proof.
  intros Hready. pose proof (gated_ready _ Hready) as Hgated.
  split; [exact Hgated|]. split.
  - intros config now e. unfold generate_ics, ics_lines.
    destruct (vevents _ _ classes) as [blocks|e'] eqn:Hv; [discriminate|].
    rewrite !bind_Raise. intros [= <-].
    now apply vevents_ready_Raise in Hv.
  - intros config now lines H. apply ics_lines_count in H.
    now rewrite Hgated in H.
Qed.

Lemma extracted_ready html label classes :
  parse_bw_widget_html html label = Ok classes -> Forall ready classes.
Proof.
  intros Hok. apply Forall_forall. intros cls Hin.
  destruct (parse_sessions_elem _ _ _ _ Hok Hin) as ([tag content] & _ & Hm).
  apply parse_session_inv in Hm
    as (start_text & start_dt & Hsearch & Hstart & Hcls).
  apply start_pattern_nonempty in Hsearch.
  split.
  - exists start_dt. apply (start_of_Some _ start_text); [|assumption..].
    destruct Hcls as [[-> _] | (end_dt & minutes & _ & _ & _ & ->)];
      reflexivity.
  - destruct Hcls as [[-> _] | (end_dt & minutes & _ & _ & _ & ->)];
      cbn [with_end base_record name]; eauto.
Qed.

(** X18. Extraction and serialisation fit together: every record that
    the extraction returns passes the start gate of the serialiser and
    has a name. So for any selection of extracted records, kept in
    their order, the serialiser skips none of them, can raise nothing
    but [OverflowError], and when it returns the document has exactly
    one entry per selected record. *)
Theorem X18_extracted_records_all_get_entries html label classes selected :
  parse_bw_widget_html html label = Ok classes ->
  selected `sublist_of` classes ->
  gated selected = selected
  /\ (forall config now e,
        generate_ics selected config now = Raise e -> e = OverflowError)
  /\ (forall config now lines,
        ics_lines selected config now = Ok lines ->
        count "BEGIN:VEVENT" lines = length selected).
Proof.
  intros Hok Hsub. apply ready_serialisation.
  apply extracted_ready in Hok.
  apply Forall_forall. intros cls Hin.
  eapply Forall_forall; [exact Hok|].
  eapply elem_of_sublist; [exact Hin | exact Hsub].
Qed.

End SerialisationMore.

(** ** Page scraping *)

Section ScrapingFacts.
Context {iso : IsoParser} {lib : StrLib}.

Implicit Types (page : Page) (frame : option string)
  (frames : list (option string)) (all_classes classes : list ClassRecord).

Lemma extend_if_any_app all_classes classes :
  extend_if_any all_classes classes = all_classes ++ classes.
Proof.
  unfold extend_if_any. destruct classes; cbn [nonempty];
    [now rewrite app_nil_r | reflexivity].
Qed.

Lemma scrape_frame_app label all_classes frame :
  scrape_frame label all_classes frame
  = all_classes ++ frame_records label frame.
Proof.
  unfold scrape_frame, frame_records. destruct frame as [frame_html|].
  - destruct (parse_bw_widget_html frame_html label).
    + apply extend_if_any_app.
    + now rewrite app_nil_r.
  - now rewrite app_nil_r.
Qed.

Lemma scrape_frames_app label frames all_classes :
  fold_left (scrape_frame label) frames all_classes
  = all_classes ++ concat (map (frame_records label) frames).
Proof.
  revert all_classes.
  induction frames as [|frame frames IH]; intros all_classes;
    cbn [fold_left map concat].
  - now rewrite app_nil_r.
  - now rewrite IH, scrape_frame_app, app_assoc.
Qed.

Lemma frame_fails_records label frame :
  frame_fails label frame -> frame_records label frame = [].
Proof.
  unfold frame_records.
  intros [-> | (frame_html & e & -> & Hraise)]; [reflexivity|].
  now rewrite Hraise.
Qed.

Lemma scrape_page_closed page label :
  scrape_page page label =
  (classes ← parse_bw_widget_html (main_content page) label;
   Ok (classes ++ concat (map (frame_records label) (other_frames page)))).
Proof.
  unfold scrape_page.
  destruct (parse_bw_widget_html (main_content page) label) as [classes|e];
    [|reflexivity].
  rewrite !bind_Ok. cbv zeta.
  now rewrite scrape_frames_app, extend_if_any_app.
Qed.

Lemma run_discovery_scrape_page page label :
  run_discovery page label = scrape_page page label.
Proof.
  rewrite scrape_page_closed. unfold run_discovery.
  destruct (parse_bw_widget_html (main_content page) label) as [classes|e];
    [|reflexivity].
  rewrite !bind_Ok. now rewrite scrape_frames_app.
Qed.

(** X19. A page gives the records of its main frame followed by those
    of its other frames, in the order of the frames, each list in the
    order of the extraction; and the discovery mode returns the same
    records as the normal mode. *)
Theorem X19_page_records_main_frame_then_frames page label :
  scrape_page page label =
  (classes ← parse_bw_widget_html (main_content page) label;
   Ok (classes ++ concat (map (frame_records label) (other_frames page))))
  /\ run_discovery page label = scrape_page page label.
Proof.
  split; [apply scrape_page_closed | apply run_discovery_scrape_page].
Qed.

(** X20. Failures are treated differently in the main frame and in the
    other frames. A frame whose content cannot be read, or on whose
    markup the extraction raises, is passed over: the page gives what
    it gives without that frame. An exception of the extraction on the
    main frame is not caught. *)
Theorem X20_frame_failure_is_passed_over label :
  (forall main frames_before frames_after frame,
     frame_fails label frame ->
     scrape_page
       {| main_content := main;
          other_frames := frames_before ++ frame :: frames_after |} label
     = scrape_page
         {| main_content := main;
            other_frames := frames_before ++ frames_after |} label)
  /\ (forall page e,
        parse_bw_widget_html (main_content page) label = Raise e ->
        scrape_page page label = Raise e).
Proof.
  split.
  - intros main frames_before frames_after frame Hfails.
    rewrite !scrape_page_closed. cbn [main_content other_frames].
    rewrite !List.map_app. cbn [map].
    rewrite !concat_app. cbn [concat].
    now rewrite (frame_fails_records _ _ Hfails).
  - intros page e Hraise. unfold scrape_page. now rewrite Hraise.
Qed.

Lemma frame_records_ready label frame :
  Forall (fun cls => ready cls /\ source cls = Some label)
    (frame_records label frame).
Proof.
  unfold frame_records. destruct frame as [frame_html|]; [|constructor].
  destruct (parse_bw_widget_html frame_html label) as [classes|e] eqn:Hok;
    [|constructor].
  apply Forall_forall. intros cls Hin. split.
  - eapply Forall_forall; [exact (extracted_ready _ _ _ Hok) | exact Hin].
  - destruct (parse_sessions_elem _ _ _ _ Hok Hin) as ([tag content] & _ & Hm).
    apply parse_session_inv in Hm as (start_text & start_dt & _ & _ & Hcls).
    destruct Hcls as [[-> _] | (end_dt & minutes & _ & _ & _ & ->)];
      reflexivity.
Qed.

Lemma scrape_page_ready page label all_classes :
  scrape_page page label = Ok all_classes ->
  Forall (fun cls => ready cls /\ source cls = Some label) all_classes.
Proof.
  rewrite scrape_page_closed. intros H. inv_bind H. apply Ok_inj in H.
  subst all_classes. apply Forall_app. split.
  - pose proof (frame_records_ready label (Some (main_content page))) as Hmain.
    unfold frame_records in Hmain. now rewrite Ha in Hmain.
  - apply Forall_concat, Forall_forall. intros l Hl.
    apply list_elem_of_In, in_map_iff in Hl as (frame & <- & _).
    apply frame_records_ready.
Qed.

(** X21. Every record that a page gives, from whichever frame, carries
    the label of the page as its source, passes the start gate of the
    serialiser and has a name. *)
Theorem X21_scraped_records_are_labelled_and_ready page label all_classes cls :
  scrape_page page label = Ok all_classes ->
  cls ∈ all_classes ->
  source cls = Some label /\ ready cls.
Proof.
  intros Hok Hin. apply scrape_page_ready in Hok.
  destruct (proj1 (Forall_forall _ _) Hok cls Hin) as [Hready Hsource].
  now split.
Qed.

End ScrapingFacts.

(** ** The run *)

Lemma dedupe_nil_iff l : dedupe l = [] <-> l = [].
Proof.
  split; [|now intros ->].
  destruct l as [|cls l]; [reflexivity|]. intros H.
  assert (Hk : key cls ∈ keys (dedupe (cls :: l)))
    by (apply dedupe_keys; left).
  rewrite H in Hk. inversion Hk.
Qed.

Lemma filter_classes_nil {lib : StrLib} config : filter_classes [] config = [].
Proof. unfold filter_classes. now destruct (negb _ && _ && _ && _). Qed.

Lemma filter_classes_sublist {lib : StrLib} classes config :
  filter_classes classes config `sublist_of` classes.
Proof.
  unfold filter_classes. destruct (negb _ && _ && _ && _); [reflexivity|].
  apply List_filter_sublist.
Qed.

Section RunFacts.
Context {iso : IsoParser} {lib : StrLib}.

Implicit Types (config : Config) (now : Datetime.datetime).

(** The normal mode, once the two pages are scraped. *)
Lemma main_normal fitness_page aquatics_page config now first second :
  scrape_page fitness_page "group_fitness" = Ok first ->
  scrape_page aquatics_page "aquatics" = Ok second ->
  main false fitness_page aquatics_page config now =
  (ics ← generate_ics (filter_classes (dedupe (first ++ second)) config)
           config now;
   Ok {| calendar := Some ics;
         exit_status := if nonempty (first ++ second) then 0 else 1 |}).
Proof.
  intros Hfirst Hsecond. unfold main. rewrite Hfirst, Hsecond, !bind_Ok.
  cbv zeta.
  destruct (dedupe (first ++ second)) as [|cls unique] eqn:Hd.
  - apply (proj1 (dedupe_nil_iff _)) in Hd. rewrite Hd. cbn [nonempty negb].
    now rewrite filter_classes_nil.
  - cbn [nonempty negb].
    destruct (first ++ second) as [|c l]; [discriminate|]. reflexivity.
Qed.

(** X22. In the normal mode, when both pages are scraped, the calendar
    written is the serialisation of the filtered, deduplicated records
    of the fitness page followed by those of the aquatics page, whether
    or not anything was scraped; the exit status is 1 exactly when
    nothing was scraped, and a configuration that filters every record
    out still ends with status 0. *)
Theorem X22_main_writes_filtered_unique_records
    fitness_page aquatics_page config now first second :
  scrape_page fitness_page "group_fitness" = Ok first ->
  scrape_page aquatics_page "aquatics" = Ok second ->
  main false fitness_page aquatics_page config now =
  (ics ← generate_ics (filter_classes (dedupe (first ++ second)) config)
           config now;
   Ok {| calendar := Some ics;
         exit_status := if nonempty (first ++ second) then 0 else 1 |}).
Proof. apply main_normal. Qed.

Lemma main_scraped discover fitness_page aquatics_page config now outcome :
  main discover fitness_page aquatics_page config now = Ok outcome ->
  exists first second,
    scrape_page fitness_page "group_fitness" = Ok first
    /\ scrape_page aquatics_page "aquatics" = Ok second.
Proof.
  unfold main.
  assert (Hsame : forall page label,
             (if discover then run_discovery else scrape_page) page label
             = scrape_page page label).
  { intros page label. destruct discover; [|reflexivity].
    apply run_discovery_scrape_page. }
  rewrite !Hsame.
  destruct (scrape_page fitness_page "group_fitness") as [first|];
    [|discriminate].
  destruct (scrape_page aquatics_page "aquatics") as [second|];
    [|discriminate].
  eauto.
Qed.


(** The records that the normal mode serialises are ready, without
    repeated keys, and a subsequence of what was scraped. *)
Lemma selected_records fitness_page aquatics_page config first second :
  scrape_page fitness_page "group_fitness" = Ok first ->
  scrape_page aquatics_page "aquatics" = Ok second ->
  let selected := filter_classes (dedupe (first ++ second)) config in
  Forall ready selected
  /\ NoDup (key <$> selected)
  /\ selected `sublist_of` first ++ second.
Proof.
  intros Hfirst Hsecond selected.
  assert (Hsub : selected `sublist_of` dedupe (first ++ second))
    by apply filter_classes_sublist.
  assert (Hsub' : selected `sublist_of` first ++ second)
    by (etransitivity; [exact Hsub | apply dedupe_sublist]).
  split; [|split; [|exact Hsub']].
  - apply Forall_forall. intros cls Hin.
    apply (elem_of_sublist _ _ _ Hin) in Hsub'.
    apply elem_of_app in Hsub' as [H | H].
    + apply scrape_page_ready in Hfirst.
      now destruct (proj1 (Forall_forall _ _) Hfirst cls H).
    + apply scrape_page_ready in Hsecond.
      now destruct (proj1 (Forall_forall _ _) Hsecond cls H).
  - apply (sublist_NoDup (key <$> selected)
             (key <$> dedupe (first ++ second)));
      first [exact (dedupe_keys_NoDup _) | apply fmap_sublist, Hsub].
Qed.

(** X23. When a run in the normal mode ends without an exception, the
    calendar it wrote is the joined lines that the serialiser built
    from the records left by the deduplication and the filter; these
    lines have exactly one entry for each of these records, no two of
    these records have the same start timestamp and name, and they are
    scraped records in the order in which they were scraped. *)
Theorem X23_main_writes_one_entry_per_selected_record
    fitness_page aquatics_page config now outcome :
  main false fitness_page aquatics_page config now = Ok outcome ->
  exists first second lines,
    scrape_page fitness_page "group_fitness" = Ok first
    /\ scrape_page aquatics_page "aquatics" = Ok second
    /\ ics_lines (filter_classes (dedupe (first ++ second)) config) config
         now = Ok lines
    /\ calendar outcome = Some (Py.join CRLF lines)
    /\ count "BEGIN:VEVENT" lines
       = length (filter_classes (dedupe (first ++ second)) config)
    /\ NoDup (key <$> filter_classes (dedupe (first ++ second)) config)
    /\ filter_classes (dedupe (first ++ second)) config
       `sublist_of` first ++ second.
Proof.
  intros Hmain.
  destruct (main_scraped _ _ _ _ _ _ Hmain) as (first & second & Hf & Hs).
  rewrite (main_normal _ _ _ _ _ _ Hf Hs) in Hmain.
  destruct (selected_records _ _ config _ _ Hf Hs) as (Hready & Hnodup & Hsub).
  inv_bind Hmain. apply Ok_inj in Hmain. subst outcome.
  unfold generate_ics in Ha. inv_bind Ha. apply Ok_inj in Ha. subst a.
  exists first, second, a0. split; [exact Hf|]. split; [exact Hs|].
  split; [exact Ha0|]. split; [reflexivity|].
  split; [|split; [exact Hnodup | exact Hsub]].
  destruct (ready_serialisation _ Hready) as (_ & _ & Hcount).
  exact (Hcount _ _ _ Ha0).
Qed.


End RunFacts.

(** * The further properties at the sample inputs *)

Section FurtherSamples.
#[local] Existing Instance ascii_text.

Lemma X1_extracted_record_is_complete_witness :
  parse_bw_widget_html (iso := iso_extended) sample_markup "aquatics"
  = Ok sample_records
  /\ water_aerobics ∈ sample_records
  /\ exists start_text start_dt,
       start_iso water_aerobics = Some start_text
       /\ fromisoformat (IsoParser := iso_extended) start_text = Some start_dt
       /\ start_hour water_aerobics = Some (Datetime.hour start_dt)
       /\ source water_aerobics = Some "aquatics".
Proof.
  assert (H1 : parse_bw_widget_html (iso := iso_extended) sample_markup
                 "aquatics" = Ok sample_records)
    by (vm_compute; reflexivity).
  assert (H2 : water_aerobics ∈ sample_records) by left.
  destruct (X1_extracted_record_is_complete (iso := iso_extended)
              sample_markup "aquatics" sample_records water_aerobics H1 H2)
    as (start_text & start_dt & Hs & _ & Hp & _ & _ & _ & Hh & Hl & _).
  exact (conj H1 (conj H2
           (ex_intro _ start_text (ex_intro _ start_dt
              (conj Hs (conj Hp (conj Hh Hl))))))).
Defined.

Lemma X2_end_time_and_duration_go_together_witness :
  parse_bw_widget_html (iso := iso_extended) sample_markup "aquatics"
  = Ok sample_records
  /\ spin_class ∈ sample_records
  /\ (is_Some (end_time spin_class) <-> is_Some (duration_minutes spin_class)).
Proof.
  assert (H1 : parse_bw_widget_html (iso := iso_extended) sample_markup
                 "aquatics" = Ok sample_records)
    by (vm_compute; reflexivity).
  assert (H2 : spin_class ∈ sample_records) by (right; left).
  exact (conj H1 (conj H2
           (proj1 (X2_end_time_and_duration_go_together (iso := iso_extended)
                     sample_markup "aquatics" sample_records spin_class
                     H1 H2)))).
Defined.

Lemma X3_extraction_raises_on_mixed_offsets_witness :
  (fst offset_fragment, snd offset_fragment)
  ∈ session_matches offset_markup
  /\ mixed_offsets (iso := iso_extended) (snd offset_fragment)
  /\ parse_bw_widget_html (iso := iso_extended) offset_markup "aquatics"
     = Raise TypeError.
Proof.
  assert (H1 : (fst offset_fragment, snd offset_fragment)
               ∈ session_matches offset_markup)
    by (vm_compute; left).
  assert (H2 : mixed_offsets (iso := iso_extended) (snd offset_fragment)).
  { exists "2026-02-16T10:00", "2026-02-16T10:45-08:00",
      (Datetime.mk 2026 2 16 10 0 0 0 None),
      (Datetime.mk 2026 2 16 10 45 0 0 (Some (-28800000000))).
    split; [vm_compute; reflexivity|]. split; [vm_compute; reflexivity|].
    split; [vm_compute; reflexivity|]. split; [vm_compute; reflexivity|].
    split; [discriminate | reflexivity]. }
  exact (conj H1 (conj H2
           (proj2 (proj2 (X3_extraction_raises_on_mixed_offsets
                            (iso := iso_extended) offset_markup "aquatics"))
              (ex_intro _ (fst offset_fragment)
                 (ex_intro _ (snd offset_fragment) (conj H1 H2)))))).
Defined.

Lemma X4_at_most_one_record_per_fragment_witness :
  parse_bw_widget_html (iso := iso_extended) sample_markup "aquatics"
  = Ok sample_records
  /\ (length sample_records <= length (session_matches sample_markup))%nat.
Proof.
  assert (H1 : parse_bw_widget_html (iso := iso_extended) sample_markup
                 "aquatics" = Ok sample_records)
    by (vm_compute; reflexivity).
  exact (conj H1
           (X4_at_most_one_record_per_fragment (iso := iso_extended)
              sample_markup "aquatics" sample_records H1)).
Defined.

Lemma X5_named_whenever_machine_name_witness :
  parse_bw_widget_html (iso := iso_extended) sample_markup "aquatics"
  = Ok sample_records
  /\ spin_class ∈ sample_records
  /\ exists opening_tag content,
       (opening_tag, content) ∈ session_matches sample_markup
       /\ raw_name spin_class
          = Some (get (Re.search_group1 Pat.raw_name_pattern opening_tag)
                    EmptyString)
       /\ (is_Some (Re.search_group1 Pat.raw_name_pattern opening_tag) ->
           raw_name spin_class <> Some EmptyString)
       /\ (name spin_class = Some EmptyString ->
           raw_name spin_class = Some EmptyString).
Proof.
  assert (H1 : parse_bw_widget_html (iso := iso_extended) sample_markup
                 "aquatics" = Ok sample_records)
    by (vm_compute; reflexivity).
  assert (H2 : spin_class ∈ sample_records) by (right; left).
  exact (conj H1 (conj H2
           (X5_named_whenever_machine_name (iso := iso_extended)
              sample_markup "aquatics" sample_records spin_class H1 H2))).
Defined.

Lemma X9_record_without_hour_skips_bounds_witness :
  start_hour untimed = None
  /\ passes_name_checks office_hours untimed
  /\ (untimed ∈ filter_classes [untimed] office_hours <-> untimed ∈ [untimed]).
Proof.
  assert (H1 : start_hour untimed = None) by reflexivity.
  assert (H2 : passes_name_checks office_hours untimed)
    by (split; [left; reflexivity | intros p Hp; inversion Hp]).
  exact (conj H1 (conj H2
           (X9_record_without_hour_skips_bounds [untimed] office_hours
              untimed H1 H2))).
Defined.

Lemma X10_blank_exclude_pattern_rejects_all_witness :
  filter_classes studio_classes blank_exclude = [].
Proof.
  apply (X10_blank_exclude_pattern_rejects_all studio_classes blank_exclude " ").
  - left.
  - discriminate.
  - reflexivity.
Defined.

Lemma X11_dedupe_keeps_every_key_witness :
  key spin_class ∈ key <$> dedupe [water_aerobics; spin_class; water_aerobics].
Proof.
  apply (proj2 (X11_dedupe_keeps_every_key
                  [water_aerobics; spin_class; water_aerobics]
                  (key spin_class))).
  right. left.
Defined.

Lemma X12_dedupe_keeps_first_occurrences_witness :
  water_aerobics ∈ dedupe ([spin_class] ++ water_aerobics :: [water_aerobics]).
Proof.
  apply (proj2 (X12_dedupe_keeps_first_occurrences
                  ([spin_class] ++ water_aerobics :: [water_aerobics])
                  water_aerobics)).
  exists [spin_class], [water_aerobics]. split; [reflexivity|].
  intros H. apply list_elem_of_singleton in H. discriminate H.
Defined.

Lemma X13_dedupe_of_distinct_keys_is_identity_witness :
  NoDup (key <$> sample_records) /\ dedupe sample_records = sample_records.
Proof.
  assert (H : NoDup (key <$> sample_records))
    by (apply (bool_decide_unpack _); vm_compute; exact I).
  exact (conj H (X13_dedupe_of_distinct_keys_is_identity sample_records H)).
Defined.

Lemma X14_missing_name_raises_KeyError_witness :
  generate_ics (iso := iso_extended)
    ([water_aerobics] ++ nameless :: [spin_class]) no_config sample_now
  = Raise KeyError.
Proof.
  eapply (X14_missing_name_raises_KeyError (iso := iso_extended)).
  - vm_compute. reflexivity.
  - vm_compute. reflexivity.
  - vm_compute. reflexivity.
  - reflexivity.
Defined.

Lemma X15_end_out_of_range_raises_OverflowError_witness :
  generate_ics (iso := iso_extended)
    ([water_aerobics] ++ last_night :: [spin_class]) no_config sample_now
  = Raise OverflowError.
Proof.
  eapply (X15_end_out_of_range_raises_OverflowError (iso := iso_extended)).
  - vm_compute. reflexivity.
  - vm_compute. reflexivity.
  - vm_compute. reflexivity.
Defined.

Lemma X16_number_of_lines_witness :
  ics_lines (iso := iso_extended) mixed_records no_config sample_now
  = Ok sample_lines
  /\ length sample_lines
     = (25 + 11 * length (gated (iso := iso_extended) mixed_records))%nat.
Proof.
  assert (H1 : ics_lines (iso := iso_extended) mixed_records no_config
                 sample_now = Ok sample_lines)
    by (vm_compute; reflexivity).
  exact (conj H1
           (X16_number_of_lines (iso := iso_extended) mixed_records no_config
              sample_now sample_lines H1)).
Defined.

Lemma X18_extracted_records_all_get_entries_witness :
  parse_bw_widget_html (iso := iso_extended) sample_markup "aquatics"
  = Ok sample_records
  /\ [spin_class] `sublist_of` sample_records
  /\ gated (iso := iso_extended) [spin_class] = [spin_class].
Proof.
  assert (H1 : parse_bw_widget_html (iso := iso_extended) sample_markup
                 "aquatics" = Ok sample_records)
    by (vm_compute; reflexivity).
  assert (H2 : [spin_class] `sublist_of` sample_records)
    by (apply sublist_cons, sublist_skip, sublist_nil).
  exact (conj H1 (conj H2
           (proj1 (X18_extracted_records_all_get_entries (iso := iso_extended)
                     sample_markup "aquatics" sample_records [spin_class]
                     H1 H2)))).
Defined.

Lemma X20_frame_failure_is_passed_over_witness :
  frame_fails (iso := iso_extended) "aquatics" (Some offset_markup)
  /\ scrape_page (iso := iso_extended)
       {| main_content := sample_markup;
          other_frames := [Some garbled_markup] ++ Some offset_markup :: [None] |}
       "aquatics"
     = scrape_page (iso := iso_extended)
         {| main_content := sample_markup;
            other_frames := [Some garbled_markup] ++ [None] |}
         "aquatics"
  /\ scrape_page (iso := iso_extended) offset_page "aquatics" = Raise TypeError.
Proof.
  assert (H1 : frame_fails (iso := iso_extended) "aquatics" (Some offset_markup)).
  { right. exists offset_markup, TypeError.
    split; [reflexivity | vm_compute; reflexivity]. }
  assert (H2 : parse_bw_widget_html (iso := iso_extended)
                 (main_content offset_page) "aquatics" = Raise TypeError)
    by (vm_compute; reflexivity).
  exact (conj H1
           (conj (proj1 (X20_frame_failure_is_passed_over (iso := iso_extended)
                           "aquatics")
                    sample_markup [Some garbled_markup] [None]
                    (Some offset_markup) H1)
                 (proj2 (X20_frame_failure_is_passed_over (iso := iso_extended)
                           "aquatics")
                    offset_page TypeError H2))).
Defined.

Lemma X21_scraped_records_are_labelled_and_ready_witness :
  source water_aerobics = Some "aquatics"
  /\ ready (iso := iso_extended) water_aerobics.
Proof.
  eapply (X21_scraped_records_are_labelled_and_ready (iso := iso_extended)
            aquatics_page "aquatics").
  - vm_compute. reflexivity.
  - left.
Defined.

Lemma X22_main_writes_filtered_unique_records_witness :
  exists first second,
    scrape_page (iso := iso_extended) fitness_page "group_fitness" = Ok first
    /\ scrape_page (iso := iso_extended) aquatics_page "aquatics" = Ok second
    /\ main (iso := iso_extended) false fitness_page aquatics_page
         office_hours sample_now =
       (ics ← generate_ics (iso := iso_extended)
                (filter_classes (dedupe (first ++ second)) office_hours)
                office_hours sample_now;
        Ok {| calendar := Some ics;
              exit_status := if nonempty (first ++ second) then 0 else 1 |}).
Proof.
  do 2 eexists.
  split; [vm_compute; reflexivity|]. split; [vm_compute; reflexivity|].
  apply (X22_main_writes_filtered_unique_records (iso := iso_extended));
    vm_compute; reflexivity.
Defined.

Lemma X23_main_writes_one_entry_per_selected_record_witness :
  exists outcome,
    main (iso := iso_extended) false fitness_page aquatics_page office_hours
      sample_now = Ok outcome
    /\ exists first second lines,
         scrape_page (iso := iso_extended) fitness_page "group_fitness"
         = Ok first
         /\ scrape_page (iso := iso_extended) aquatics_page "aquatics"
            = Ok second
         /\ ics_lines (iso := iso_extended)
              (filter_classes (dedupe (first ++ second)) office_hours)
              office_hours sample_now = Ok lines
         /\ calendar outcome = Some (Py.join CRLF lines)
         /\ count "BEGIN:VEVENT" lines
            = length (filter_classes (dedupe (first ++ second)) office_hours)
         /\ NoDup (key <$> filter_classes (dedupe (first ++ second))
                             office_hours)
         /\ filter_classes (dedupe (first ++ second)) office_hours
            `sublist_of` first ++ second.
Proof.
  destruct (main (iso := iso_extended) false fitness_page aquatics_page
              office_hours sample_now) as [outcome|e] eqn:H.
  - exists outcome. split; [reflexivity|].
    exact (X23_main_writes_one_entry_per_selected_record
             (iso := iso_extended) fitness_page aquatics_page office_hours
             sample_now outcome H).
  - exfalso. vm_compute in H. discriminate H.
Defined.


Example fitness_and_aquatics_run :
  exists ics,
    main (iso := iso_extended) false fitness_page aquatics_page office_hours
      sample_now = Ok {| calendar := Some ics; exit_status := 0 |}
    /\ Py.contains "SUMMARY" ics = true.
Proof. eexists. split; [vm_compute; reflexivity | vm_compute; reflexivity]. Qed.

End FurtherSamples.
